(** * AuraSense serverless handlers: a shallow embedding and its properties

    The repository holds five near-duplicate Vercel functions.  Four of them
    (the two documents of [src/api/index.js], [src/index.js] and
    [src/unnamed/part_000]) relay a sensor reading to the prediction API and
    write the prediction to Firestore; the fifth ([src/unnamed/part_001])
    uploads the raw reading to Firestore directly.

    The handlers are embedded as programs over an explicit effect signature
    (outbound axios calls, the clock, the console), run against a world that
    answers the calls.  JavaScript values are embedded as they are at run
    time: JSON data with binary64 numbers and the language's truthiness. *)

From Stdlib Require Import ZArith Floats Ascii String.
From stdpp Require Import gmap strings list fin_maps pretty.

Set Warnings "-register-all,-inexact-float".

(** ** JavaScript values *)

Module JS.

(** The values a JSON body, a JSON reply or an object literal of the handlers
    can hold.  Numbers are IEEE 754 binary64, as in the language.  An object
    is a plain one, as [JSON.parse] and object literals make them: the finite
    map of its own enumerable properties, none of them a function, with
    [Object.prototype] behind it.  A string is held by its bytes in UTF-8 (a
    surrogate that stands alone by the three bytes of its code point), and
    stands for the UTF-16 code units the language sees. *)
Inductive value : Type :=
| VUndefined
| VNull
| VBool (b : bool)
| VNum (x : float)
| VStr (s : string)
| VArr (l : list value)
| VObj (m : gmap string value).

(** ToBoolean: [undefined], [null], [false], [+0], [-0], [NaN] and the empty
    string are falsy, everything else (every object and array) is truthy. *)
Definition truthy (v : value) : bool :=
  match v with
  | VUndefined | VNull => false
  | VBool b => b
  | VNum x => negb (PrimFloat.eqb x 0) && PrimFloat.eqb x x
  | VStr s => match s with EmptyString => false | String _ _ => true end
  | VArr _ | VObj _ => true
  end.

(** [a || b] and [a && b] return one of their operands. *)
Definition js_or (a b : value) : value := if truthy a then a else b.
Definition js_and (a b : value) : value := if truthy a then b else a.

(** [undefined] and [null] cannot be destructured or dereferenced. *)
Definition nullish (v : value) : bool :=
  match v with VUndefined | VNull => true | _ => false end.

(** The index properties of an array or of a string, keyed by the decimal
    spelling of the index. *)
Definition indexed (l : list value) : gmap string value :=
  list_to_map (imap (fun i v => (pretty i, v)) l).

(** The bytes [10xxxxxx], which continue a UTF-8 sequence. *)
Definition continuation (c : ascii) : bool :=
  (128 <=? N_of_ascii c)%N && (N_of_ascii c <? 192)%N.

(** The bytes of a string, cut into UTF-8 sequences: a byte and the
    continuation bytes that follow it. *)
Fixpoint sequences (s : list ascii) : list (list ascii) :=
  match s with
  | [] => []
  | c :: s' =>
      match sequences s' with
      | (d :: g) :: gs =>
          if continuation d then (c :: d :: g) :: gs else [c] :: (d :: g) :: gs
      | gs => [c] :: gs
      end
  end.

(** The three bytes of a surrogate [u] (a code point from D800 to DFFF). *)
Definition surrogate (u : N) : string :=
  String (ascii_of_N 237)
    (String (ascii_of_N (128 + N.land (N.shiftr u 6) 63))
       (String (ascii_of_N (128 + N.land u 63)) EmptyString)).

(** The UTF-16 code units of one UTF-8 sequence, each as a string of its own:
    a sequence of four bytes is a code point beyond FFFF and makes a pair of
    surrogates, any other sequence makes one code unit. *)
Definition code_units (g : list ascii) : list string :=
  match g with
  | [b0; b1; b2; b3] =>
      if (240 <=? N_of_ascii b0)%N then
        let cp := (N.land (N_of_ascii b0) 7 * 262144
                   + N.land (N_of_ascii b1) 63 * 4096
                   + N.land (N_of_ascii b2) 63 * 64
                   + N.land (N_of_ascii b3) 63)%N in
        let v := (cp - 65536)%N in
        [ surrogate (55296 + N.shiftr v 10); surrogate (56320 + N.land v 1023) ]
      else [string_of_list_ascii g]
  | _ => [string_of_list_ascii g]
  end.

(** The characters of a string, [s[0]], [s[1]], ...: one per UTF-16 code
    unit. *)
Definition chars (s : string) : list value :=
  VStr <$> (sequences (list_ascii_of_string s) ≫= code_units).

(** The own enumerable properties of a value: what [for (key in v)] visits
    and what [v[key]] reads for such a key.  Numbers and booleans have none. *)
Definition own_props (v : value) : gmap string value :=
  match v with
  | VObj m => m
  | VArr l => indexed l
  | VStr s => indexed (chars s)
  | _ => ∅
  end.

(** [v.k] on a value that is not nullish: the own property, else [undefined].
    The handlers read only [hr], [hrv], [bt], [spo2], [userId], [stress_level],
    [probabilities] and the keys a [for .. in] loop hands them; none of these
    is an inherited property or [length]. *)
Definition get (v : value) (k : string) : value :=
  default VUndefined (own_props v !! k).

(** [o[k] = v] on a plain object.  Assigning to the key [__proto__] runs the
    prototype setter and creates no own property. *)
Definition set (o : gmap string value) (k : string) (v : value) : gmap string value :=
  if decide (k = "__proto__") then o else <[k := v]> o.

(** [for (const key in v) acc = body key acc].  The keys are visited in the
    order of the map; the loop of the handlers fills an object, key by key,
    and what it ends with does not depend on the order. *)
Definition for_in {S : Type} (v : value) (body : string -> S -> S) (init : S) : S :=
  foldl (fun acc key => body key acc) init (map_to_list (own_props v)).*1.

(** ToString does not throw on [v].  ToString of an object calls its
    [toString], then its [valueOf], and throws a TypeError when neither gives a
    primitive.  A value read from JSON holds no function: an object with an
    own property [toString] hides the inherited method and is left with the
    inherited [valueOf], which returns the object itself; any other object is
    "[object Object]".  An array joins the strings of its elements, [null] and
    [undefined] counting as empty.  Primitives always have a string. *)
Fixpoint stringifiable (v : value) : bool :=
  match v with
  | VObj m => bool_decide (m !! "toString" = None)
  | VArr l => forallb stringifiable l
  | _ => true
  end.

(** The object literal [{ k: v }]. *)
Definition obj1 (k : string) (v : value) : value := VObj {[ k := v ]}.

(** A template literal, kept as its parts: the literal chunks and the
    substituted values, in order.  Evaluation applies ToString to every
    substitution; equal templates therefore denote equal strings. *)
Inductive part : Type :=
| Lit (s : string)
| Sub (v : value).

Definition template : Type := list part.

(** Every substitution of the template has a string. *)
Definition evaluable (t : template) : bool :=
  forallb (fun p => match p with Lit _ => true | Sub v => stringifiable v end) t.

(** The string of a value that has one, as far as its [%] characters go: the
    digits of a number, which hold no [%] and begin with none of the letters
    of a format directive, are put as "0". *)
Fixpoint sketch (v : value) : string :=
  match v with
  | VUndefined => "undefined"
  | VNull => "null"
  | VBool true => "true"
  | VBool false => "false"
  | VNum _ => "0"
  | VStr s => s
  | VArr l =>
      String.concat ","
        (List.map (fun e => if nullish e then EmptyString else sketch e) l)
  | VObj _ => "[object Object]"
  end.

Definition sketch_template (t : template) : string :=
  String.concat EmptyString
    (List.map (fun p => match p with Lit s => s | Sub v => sketch v end) t).

(** [console.log(format, ...args)] hands its arguments to Node's
    [util.format].  That scans [format] for [%] followed by a directive and
    gives each directive the next argument, as long as one is left: [%d]
    takes [Number(arg)], [%i] and [%f] parse [String(arg)], and all three
    throw a TypeError for an argument that has no string; [%s], [%j], [%o],
    [%O] and [%c] take the argument without converting an object; [%]
    followed by anything else is skipped with what follows it.  The result
    says whether the scan throws. *)
Fixpoint format_throws (format : string) (args : list value) : bool :=
  match args with
  | [] => false
  | a :: rest =>
      match format with
      | String "%" (String c format') =>
          if bool_decide (c ∈ ["d"; "i"; "f"]%char)
          then negb (stringifiable a) || format_throws format' rest
          else if bool_decide (c ∈ ["s"; "j"; "o"; "O"; "c"]%char)
          then format_throws format' rest
          else format_throws format' args
      | String _ format' => format_throws format' args
      | EmptyString => false
      end
  end.

(** A console call with the evaluated line [t] and the further arguments
    [args] writes its line. *)
Definition formats (t : template) (args : list value) : bool :=
  match args with
  | [] => true
  | _ :: _ => negb (format_throws (sketch_template t) args)
  end.

End JS.

(** ** [Date.prototype.toISOString] *)

Module Date.

Local Open Scope Z_scope.

Definition msPerDay : Z := 86400000.

(** Day number since 1970-01-01 to the proleptic Gregorian (year, month, day),
    with the year counted from March so that the leap day comes last. *)
Definition civil_from_days (days : Z) : Z * Z * Z :=
  let z := days + 719468 in
  let era := z / 146097 in
  let doe := z mod 146097 in
  let yoe := (doe - doe / 1460 + doe / 36524 - doe / 146096) / 365 in
  let doy := doe - (365 * yoe + yoe / 4 - yoe / 100) in
  let mp := (5 * doy + 2) / 153 in
  let d := doy - (153 * mp + 2) / 5 + 1 in
  let m := if mp <? 10 then mp + 3 else mp - 9 in
  let y := yoe + era * 400 + (if m <=? 2 then 1 else 0) in
  (y, m, d).

Definition digit (z : Z) : ascii := ascii_of_nat (48 + Z.to_nat (z mod 10)).

(** The [w] low decimal digits of [z], most significant first. *)
Fixpoint digits (w : nat) (z : Z) : string :=
  match w with
  | O => EmptyString
  | S w' => String (digit (z / 10 ^ Z.of_nat w')) (digits w' z)
  end.

(** Four digits for the years 0 to 9999, else a sign and six digits. *)
Definition year_string (y : Z) : string :=
  if (0 <=? y) && (y <=? 9999) then digits 4 y
  else String.append (if y <? 0 then "-" else "+") (digits 6 (Z.abs y)).

(** [new Date(t).toISOString()] for a time value [t], in milliseconds since
    the epoch: [YYYY-MM-DDTHH:mm:ss.sssZ], always in UTC. *)
Definition toISOString (t : Z) : string :=
  let '(y, m, d) := civil_from_days (t / msPerDay) in
  let ms := t mod msPerDay in
  year_string y +:+ "-" +:+ digits 2 m +:+ "-" +:+ digits 2 d +:+ "T"
    +:+ digits 2 (ms / 3600000) +:+ ":" +:+ digits 2 (ms / 60000 mod 60) +:+ ":"
    +:+ digits 2 (ms / 1000 mod 60) +:+ "." +:+ digits 3 (ms mod 1000) +:+ "Z".

(** The shape of an ISO-8601 UTC timestamp, as a pattern over characters. *)
Inductive cls : Type :=
| Digit
| Char (c : ascii).

Definition is_digit (c : ascii) : bool :=
  (48 <=? nat_of_ascii c)%nat && (nat_of_ascii c <=? 57)%nat.

Fixpoint matches (p : list cls) (s : string) : bool :=
  match p, s with
  | [], EmptyString => true
  | Digit :: p', String c s' => is_digit c && matches p' s'
  | Char a :: p', String c s' => Ascii.eqb a c && matches p' s'
  | _, _ => false
  end.

Definition iso_tail : list cls :=
  [ Char "-"; Digit; Digit; Char "-"; Digit; Digit; Char "T";
    Digit; Digit; Char ":"; Digit; Digit; Char ":"; Digit; Digit;
    Char "."; Digit; Digit; Digit; Char "Z" ]%char.

Definition is_iso8601 (s : string) : bool :=
  matches (replicate 4 Digit ++ iso_tail) s
  || matches (Char "+"%char :: replicate 6 Digit ++ iso_tail) s
  || matches (Char "-"%char :: replicate 6 Digit ++ iso_tail) s.

End Date.

(** ** Effects: axios, the clock, the console *)

Module Eff.
Import JS.

(** [axios.post] and [axios.patch]. *)
Inductive verb : Type :=
| POST
| PATCH.

(** One outbound call: [axios.<verb>(url, data)]. *)
Record call : Type := Call {
  call_verb : verb;
  call_url : template;
  call_data : value
}.

(** The error a rejected axios promise carries.  [err_response] is
    [err.response.data] when the server answered (a status outside 2xx) and
    absent when it did not (no connection, timeout). *)
Record axios_error : Type := AxiosError {
  err_message : string;
  err_response : option value
}.

(** An axios promise settles: it resolves with a response, of which the
    handlers read only [data], or it rejects. *)
Inductive outcome : Type :=
| Resolved (data : value)
| Rejected (e : axios_error).

(** What a handler can throw: a rejected call, or a TypeError (destructuring
    or reading [undefined] or [null], converting a value that has no string). *)
Inductive exn : Type :=
| Failed (e : axios_error)
| TypeError (msg : string).

Definition exn_message (e : exn) : string :=
  match e with
  | Failed a => err_message a
  | TypeError msg => msg
  end.

Definition exn_response (e : exn) : option value :=
  match e with
  | Failed a => err_response a
  | TypeError _ => None
  end.

Inductive level : Type :=
| Log
| Error.

(** Programs: the handler's code with its effects left open. *)
Inductive prog (A : Type) : Type :=
| Ret (a : A)
| Throw (e : exn)
| Await (c : call) (k : outcome -> prog A)
| NewDate (k : Z -> prog A)
| Console (l : level) (msg : template) (args : list value) (k : prog A).

Arguments Ret {A} a.
Arguments Throw {A} e.
Arguments Await {A} c k.
Arguments NewDate {A} k.
Arguments Console {A} l msg args k.

Fixpoint bind {A B : Type} (p : prog A) (f : A -> prog B) : prog B :=
  match p with
  | Ret a => f a
  | Throw e => Throw e
  | Await c k => Await c (fun o => bind (k o) f)
  | NewDate k => NewDate (fun t => bind (k t) f)
  | Console l msg args k => Console l msg args (bind k f)
  end.

#[global] Instance prog_ret : MRet prog := fun A a => Ret a.
#[global] Instance prog_bind : MBind prog := fun A B f p => bind p f.

(** [try { p } catch (e) { h e }]. *)
Fixpoint try_catch {A : Type} (p : prog A) (h : exn -> prog A) : prog A :=
  match p with
  | Ret a => Ret a
  | Throw e => h e
  | Await c k => Await c (fun o => try_catch (k o) h)
  | NewDate k => NewDate (fun t => try_catch (k t) h)
  | Console l msg args k => Console l msg args (try_catch k h)
  end.

(** [await axios.<verb>(url, data)]: the response's data, or the rejection
    thrown. *)
Definition axios (v : verb) (url : template) (data : value) : prog value :=
  Await (Call v url data)
    (fun o => match o with
              | Resolved d => Ret d
              | Rejected e => Throw (Failed e)
              end).

(** [new Date()], as its time value. *)
Definition new_Date : prog Z := NewDate Ret.

(** [console.log(msg, ...args)] and [console.error(msg, ...args)]: the line
    is written, unless formatting it throws. *)
Definition console (l : level) (msg : template) (args : list value) : prog unit :=
  if formats msg args
  then Console l msg args (Ret tt)
  else Throw (TypeError "Cannot convert object to primitive value").

Definition console_log (msg : template) (args : list value) : prog unit :=
  console Log msg args.

Definition console_error (msg : template) (args : list value) : prog unit :=
  console Error msg args.

(** Destructuring [const { .. } = v] throws on [undefined] and [null]. *)
Definition destructurable (v : value) : prog unit :=
  if nullish v
  then Throw (TypeError "Cannot destructure property of undefined or null")
  else Ret tt.

(** Reading a property, [v.k], throws on [undefined] and [null]. *)
Definition dereferenceable (v : value) : prog unit :=
  if nullish v
  then Throw (TypeError "Cannot read properties of undefined or null")
  else Ret tt.

(** Evaluating a template literal: ToString of each substitution, which
    throws for a value that has no string.  The string that results is kept
    as the parts of the template. *)
Definition interpolate (t : template) : prog template :=
  if evaluable t
  then Ret t
  else Throw (TypeError "Cannot convert object to primitive value").

(** The world of one invocation: how the network settles each call, and what
    the clock reads.  No handler makes the same call twice or reads the clock
    twice, so a world that answers by the call itself covers every course an
    invocation can take. *)
Record world : Type := World {
  network : call -> outcome;
  clock : Z
}.

(** What an invocation leaves behind, in order. *)
Inductive event : Type :=
| Called (c : call)
| Logged (l : level) (msg : template) (args : list value).

(** Run a program in a world: the events it causes, and its return value or
    the exception that escapes it. *)
Fixpoint run {A : Type} (w : world) (p : prog A) : list event * (exn + A) :=
  match p with
  | Ret a => ([], inr a)
  | Throw e => ([], inl e)
  | Await c k =>
      let r := run w (k (network w c)) in (Called c :: r.1, r.2)
  | NewDate k => run w (k (clock w))
  | Console l msg args k =>
      let r := run w k in (Logged l msg args :: r.1, r.2)
  end.

(** The outbound calls among the events. *)
Definition outbound (t : list event) : list call :=
  omap (fun e => match e with Called c => Some c | Logged _ _ _ => None end) t.

(** The response object [res] of the platform, as the handler leaves it. *)
Record response : Type := Response {
  statusCode : Z;
  headers : gmap string value;
  sent : option value
}.

Definition res0 : response := Response 200 ∅ None.

(** [res.setHeader(name, v)] *)
Definition setHeader (res : response) (name : string) (v : value) : response :=
  Response (statusCode res) (<[name := v]> (headers res)) (sent res).

(** [res.status(code)] *)
Definition status (res : response) (code : Z) : response :=
  Response code (headers res) (sent res).

(** [res.send(body)] and [res.json(body)] both end the response with [body]. *)
Definition send (res : response) (body : value) : response :=
  Response (statusCode res) (headers res) (Some body).

Definition json (res : response) (body : value) : response :=
  Response (statusCode res) (headers res) (Some body).

(** The request, of which the handlers read [method] and [body]. *)
Record request : Type := Request {
  method : string;
  body : value
}.

(** [process.env]: a variable is a string or is not set. *)
Record env : Type := Env {
  FIREBASE_API_KEY : option string;
  FIREBASE_PROJECT_ID : option string
}.

Definition env_value (o : option string) : value :=
  match o with
  | Some s => VStr s
  | None => VUndefined
  end.

End Eff.

(** ** The prediction-relay handlers *)

Module Relay.
Import JS Eff.

(** The four files that hold the relay handler.  [src/api/index.js] holds two
    documents, one after the other. *)
Inductive file : Type :=
| api_index_1   (* src/api/index.js, lines 1-97 *)
| api_index_2   (* src/api/index.js, lines 98-193 *)
| index_js      (* src/index.js *)
| part_000.     (* src/unnamed/part_000 *)

(** Where the four differ: the axios verb of the store write, the end of the
    document path, and the texts of the logs and of the error bodies. *)
Record texts : Type := Texts {
  store_verb : verb;
  doc_tail : string;
  log_received : string;
  log_prediction : string;
  log_wrote : string;
  log_write_error : string;
  log_bad_response : string;
  err_bad_response : string;
  log_call_failed : string;
  log_error_data : string;
  err_call_failed : string
}.

Definition texts_of (f : file) : texts :=
  match f with
  | api_index_1 =>
      Texts PATCH "/readings/latest"
        "[Vercel] Received data for user "
        "[Vercel] API Prediction: "
        "[Vercel] Wrote to Firestore for user "
        "[Vercel] Firestore write error:"
        "[Vercel] Unexpected API response:"
        "Bad API response"
        "[Vercel] Error calling prediction API:"
        "API error data:"
        "API call failed"
  | api_index_2 =>
      Texts POST "/readings/latest"
        "[Vercel Brain] Received data for user "
        "[Vercel Brain] ✅ Prediction: "
        "[Vercel Brain] ✅ Wrote to Firestore for user "
        "[Vercel Brain] ❌ Error writing to Firestore:"
        "[Vercel Brain] ⚠️ API returned unexpected format:"
        "Internal - Bad API Response"
        "[Vercel Brain] ❌ Error calling prediction API:"
        "API Error Data:"
        "Internal - API Call Failed"
  | index_js =>
      Texts PATCH "/latest"
        "[Vercel Brain] Received data for user "
        "[Vercel Brain] API Success. Prediction: "
        "[Vercel Brain] Wrote to Firestore for user "
        "[Vercel Brain] Error writing to Firestore:"
        "[Vercel Brain] API response was successful but format was unexpected:"
        "Internal - Bad API Response"
        "[Vercel Brain] Error calling prediction API:"
        "API Error Data:"
        "Internal - API Call Failed"
  | part_000 =>
      Texts PATCH "/readings/latest"
        "[Vercel Brain] Received data for user "
        "[Vercel Brain] ✅ API Success. Prediction: "
        "[Vercel Brain] ✅ Wrote to Firestore for user "
        "[Vercel Brain] ❌ Error writing to Firestore:"
        "[Vercel Brain] ⚠️ API returned unexpected format:"
        "Internal - Bad API Response"
        "[Vercel Brain] ❌ Error calling prediction API:"
        "API Error Data:"
        "Internal - API Call Failed"
  end.

Definition RENDER_API_ENDPOINT : template :=
  [Lit "https://aurasense-api.onrender.com/predict"].

Definition FIRESTORE : string := "https://firestore.googleapis.com/v1/".

(** [projects/${FIREBASE_PROJECT_ID}/databases/(default)/documents/user_display/${userId}<tail>] *)
Definition docPath (cfg : env) (userId : value) (tail : string) : template :=
  [ Lit "projects/"; Sub (env_value (FIREBASE_PROJECT_ID cfg));
    Lit "/databases/(default)/documents/user_display/"; Sub userId; Lit tail ].

(** [https://firestore.googleapis.com/v1/${docPath}?key=${FIREBASE_API_KEY}] *)
Definition store_url (cfg : env) (path : template) : template :=
  [Lit FIRESTORE] ++ path ++ [Lit "?key="; Sub (env_value (FIREBASE_API_KEY cfg))].

(** The loop of [writeToFirestore] over [data.probabilities]. *)
Definition probFields (probabilities : value) : gmap string value :=
  for_in probabilities
    (fun key acc => set acc key (obj1 "doubleValue" (get probabilities key)))
    ∅.

(** The field map [writeToFirestore] builds from a [data] that is not [null]
    or [undefined]; [now] is [new Date()]. *)
Definition fields_of (data : value) (now : Z) : gmap string value :=
  let fields : gmap string value :=
    {[ "stress_level" := obj1 "stringValue" (get data "stress_level");
       "hr" := obj1 "doubleValue" (get data "hr");
       "timestamp" := obj1 "timestampValue" (VStr (Date.toISOString now)) ]} in
  if truthy (get data "probabilities")
  then <["probabilities" :=
          obj1 "mapValue" (obj1 "fields" (VObj (probFields (get data "probabilities"))))]>
         fields
  else fields.

Definition writeToFirestore (f : file) (cfg : env) (userId data : value) : prog unit :=
  let tx := texts_of f in
  path ← interpolate (docPath cfg userId (doc_tail tx));
  dereferenceable data;;
  now ← new_Date;
  let fields := fields_of data now in
  try_catch
    (url ← interpolate (store_url cfg path);
     axios (store_verb tx) url (obj1 "fields" (VObj fields));;
     line ← interpolate [Lit (log_wrote tx); Sub userId];
     console_log line [])
    (fun err =>
       console_error [Lit (log_write_error tx)]
         [match exn_response err with
          | Some d => d
          | None => VStr (exn_message err)
          end]).

(** The body sent to the prediction API. *)
Definition apiPayload (hr hrv bt : value) : value :=
  VObj {[ "mode" := VStr "raw";
          "raw" := VObj {[ "HR" := hr; "HRV" := hrv; "BT" := bt ]} ]}.

Definition method_not_allowed : response :=
  send (status (setHeader res0 "Allow" (VArr [VStr "POST"])) 405)
       (VStr "Method Not Allowed").

Definition missing_fields : response :=
  send (status res0 400) (obj1 "error" (VStr "Missing required fields: hr, userId")).

Definition success (prediction : value) : response :=
  send (status res0 200)
       (VObj {[ "success" := VBool true; "prediction" := prediction ]}).

Definition failure (msg : string) : response :=
  send (status res0 500) (obj1 "error" (VStr msg)).

(** [module.exports = async (req, res) => ...] *)
Definition handler (f : file) (cfg : env) (req : request) : prog response :=
  let tx := texts_of f in
  if decide (method req = "POST") then
    destructurable (body req);;
    let hr := get (body req) "hr" in
    let hrv := get (body req) "hrv" in
    let bt := get (body req) "bt" in
    let userId := get (body req) "userId" in
    if negb (truthy hr) || negb (truthy userId) then
      mret missing_fields
    else
      line ← interpolate [Lit (log_received tx); Sub userId; Lit ":"];
      console_log line [body req];;
      try_catch
        (data ← axios POST RENDER_API_ENDPOINT (apiPayload hr hrv bt);
         if truthy (js_and data (get data "stress_level")) then
           let prediction := get data "stress_level" in
           let probabilities := js_or (get data "probabilities") VNull in
           line ← interpolate [Lit (log_prediction tx); Sub prediction];
           console_log line [];;
           writeToFirestore f cfg userId
             (VObj {[ "stress_level" := prediction;
                      "probabilities" := probabilities;
                      "hr" := hr ]});;
           mret (success prediction)
         else
           console_error [Lit (log_bad_response tx)] [data];;
           mret (failure (err_bad_response tx)))
        (fun err =>
           console_error [Lit (log_call_failed tx)] [VStr (exn_message err)];;
           match exn_response err with
           | Some d => console_error [Lit (log_error_data tx)] [d]
           | None => mret tt
           end;;
           mret (failure (err_call_failed tx)))
  else
    mret method_not_allowed.

End Relay.

(** ** The raw-upload handler ([src/unnamed/part_001]) *)

Module Upload.
Import JS Eff.

(** [const { userId = "user1" } = req.body]: the default replaces [undefined]
    only. *)
Definition or_default (v d : value) : value :=
  match v with
  | VUndefined => d
  | _ => v
  end.

Definition fields_of (hr spo2 hrv : value) (now : Z) : gmap string value :=
  {[ "hr" := obj1 "doubleValue" hr;
     "spo2" := obj1 "doubleValue" spo2;
     "hrv" := obj1 "doubleValue" hrv;
     "timestamp" := obj1 "timestampValue" (VStr (Date.toISOString now)) ]}.

Definition method_not_allowed : response :=
  json (status res0 405) (obj1 "message" (VStr "Method Not Allowed")).

Definition credentials_missing : response :=
  json (status res0 500) (obj1 "error" (VStr "Firebase credentials missing")).

Definition uploaded : response :=
  json (status res0 200)
       (VObj {[ "success" := VBool true; "message" := VStr "Data uploaded" ]}).

Definition upload_failed : response :=
  json (status res0 500) (obj1 "error" (VStr "Failed to upload data")).

(** [export default async function handler(req, res)] *)
Definition handler (cfg : env) (req : request) : prog response :=
  if decide (method req = "POST") then
    destructurable (body req);;
    let hr := get (body req) "hr" in
    let spo2 := get (body req) "spo2" in
    let hrv := get (body req) "hrv" in
    let userId := or_default (get (body req) "userId") (VStr "user1") in
    if negb (truthy (env_value (FIREBASE_PROJECT_ID cfg)))
       || negb (truthy (env_value (FIREBASE_API_KEY cfg))) then
      mret credentials_missing
    else
      try_catch
        (docPath ← interpolate (Relay.docPath cfg userId "/readings/latest");
         now ← new_Date;
         let fields := fields_of hr spo2 hrv now in
         url ← interpolate (Relay.store_url cfg docPath);
         axios POST url (obj1 "fields" (VObj fields));;
         mret uploaded)
        (fun error =>
           console_error [Lit "Firestore error:"]
             [js_or (default VUndefined (exn_response error))
                    (VStr (exn_message error))];;
           mret upload_failed)
  else
    mret method_not_allowed.

End Upload.

(** ** Observations on an invocation *)

Module Obs.
Import JS Eff.

(** A call goes to the prediction service when its URL is the endpoint, and
    to the document store when its URL starts with the Firestore REST root. *)
Definition to_prediction_service (c : call) : bool :=
  match call_url c with
  | [Lit s] => String.eqb s "https://aurasense-api.onrender.com/predict"
  | _ => false
  end.

Definition to_document_store (c : call) : bool :=
  match call_url c with
  | Lit s :: _ => String.eqb s Relay.FIRESTORE
  | _ => false
  end.

(** The call the relay handlers make to the prediction service. *)
Definition prediction_call (payload : value) : call :=
  Call POST Relay.RENDER_API_ENDPOINT payload.

(** The write the relay handlers make to the document store. *)
Definition store_call (f : Relay.file) (cfg : env) (userId : value)
    (fields : gmap string value) : call :=
  Call (Relay.store_verb (Relay.texts_of f))
       (Relay.store_url cfg (Relay.docPath cfg userId (Relay.doc_tail (Relay.texts_of f))))
       (obj1 "fields" (VObj fields)).

(** The write of the raw-upload handler. *)
Definition upload_call (cfg : env) (userId : value) (fields : gmap string value) : call :=
  Call POST (Relay.store_url cfg (Relay.docPath cfg userId "/readings/latest"))
       (obj1 "fields" (VObj fields)).

(** The request gets past the method check, the destructuring and the
    presence check on [hr] and [userId]. *)
Definition passes_validation (req : request) : Prop :=
  method req = "POST" ∧ nullish (body req) = false ∧
  truthy (get (body req) "hr") = true ∧
  truthy (get (body req) "userId") = true.

(** The payload a relay handler builds from the body of the request. *)
Definition payload_of (req : request) : value :=
  Relay.apiPayload (get (body req) "hr") (get (body req) "hrv") (get (body req) "bt").

(** The object a relay handler passes to [writeToFirestore]. *)
Definition stored_of (req : request) (data : value) : value :=
  VObj {[ "stress_level" := get data "stress_level";
          "probabilities" := js_or (get data "probabilities") VNull;
          "hr" := get (body req) "hr" ]}.

(** The relay handler can write its first log line, the one before the [try]:
    [userId] has a string, and the line, taken as a format for [req.body],
    asks for no conversion that throws. *)
Definition logs_receipt (f : Relay.file) (req : request) : bool :=
  stringifiable (get (body req) "userId")
  && formats [ Lit (Relay.log_received (Relay.texts_of f));
               Sub (get (body req) "userId"); Lit ":" ] [body req].

(** The request gets the raw-upload handler into its [try] block. *)
Definition reaches_write (cfg : env) (req : request) : Prop :=
  method req = "POST" ∧ nullish (body req) = false ∧
  truthy (env_value (FIREBASE_PROJECT_ID cfg)) = true ∧
  truthy (env_value (FIREBASE_API_KEY cfg)) = true.

(** The user the raw-upload handler files the reading under. *)
Definition upload_user (req : request) : value :=
  Upload.or_default (get (body req) "userId") (VStr "user1").

Definition upload_fields (req : request) (now : Z) : gmap string value :=
  Upload.fields_of (get (body req) "hr") (get (body req) "spo2")
    (get (body req) "hrv") now.

Definition store_writes (t : list event) : list call :=
  filter (fun c => to_document_store c = true) (outbound t).

Definition prediction_calls (t : list event) : list call :=
  filter (fun c => to_prediction_service c = true) (outbound t).

(** The status code of the answer, when the handler answers at all. *)
Definition status_of (r : exn + response) : option Z :=
  match r with
  | inr res => Some (statusCode res)
  | inl _ => None
  end.

End Obs.

(** ** Scenarios used to exercise the handlers *)

Module Scenario.
Import JS Eff.

(** [{ hr: 72, hrv: 45, bt: 36.6, userId: "u1" }] *)
Definition reading_u1 : value :=
  VObj {[ "hr" := VNum 72; "hrv" := VNum 45; "bt" := VNum 36.6;
          "userId" := VStr "u1" ]}.

(** [{ stress_level: "calm", probabilities: { calm: 0.9, stressed: 0.1 } }] *)
Definition calm_reply : value :=
  VObj {[ "stress_level" := VStr "calm";
          "probabilities" := VObj {[ "calm" := VNum 0.9; "stressed" := VNum 0.1 ]} ]}.

Definition configured : env := Env (Some "AIza-key") (Some "aurasense").
Definition unconfigured : env := Env None None.

Definition refused : axios_error := AxiosError "connect ECONNREFUSED" None.
Definition forbidden : axios_error :=
  AxiosError "Request failed with status code 403"
    (Some (obj1 "error" (VStr "PERMISSION_DENIED"))).

(** A world is given by what each of the two services does. *)
Definition world_of (prediction store : outcome) : world :=
  World (fun c => if Obs.to_prediction_service c then prediction else store)
        1700000000000.

Definition all_well : world := world_of (Resolved calm_reply) (Resolved (VObj ∅)).
Definition store_down : world := world_of (Resolved calm_reply) (Rejected forbidden).
Definition api_down : world := world_of (Rejected refused) (Resolved (VObj ∅)).
Definition no_level : world :=
  world_of (Resolved (obj1 "probabilities" (VObj ∅))) (Resolved (VObj ∅)).
Definition empty_level : world :=
  world_of (Resolved (obj1 "stress_level" (VStr ""))) (Resolved (VObj ∅)).

End Scenario.

(** * Properties *)

(** ** Facts about the embedded language *)

Section js_facts.
Import JS.

Lemma foldl_set_lookup (g : string -> value) (l : list string)
    (acc : gmap string value) (k : string) :
  foldl (fun acc key => set acc key (g key)) acc l !! k =
    if decide (k ∈ l ∧ k ≠ "__proto__") then Some (g k) else acc !! k.
Proof.
  revert acc. induction l as [|a l IH]; intros acc; cbn [foldl].
  - destruct (decide _) as [[H _]|]; [by apply elem_of_nil in H|done].
  - rewrite IH. unfold set.
    destruct (decide (k ∈ l ∧ k ≠ "__proto__")) as [[Hin Hk]|Hn].
    + rewrite decide_True; [done|]. split; [by right|done].
    + destruct (decide (a = "__proto__")) as [->|Ha].
      * rewrite decide_False; [done|]. intros [Hin Hk].
        apply elem_of_cons in Hin as [->|Hin]; [done|]. apply Hn. done.
      * destruct (decide (k = a)) as [->|Hka].
        -- rewrite lookup_insert_eq. rewrite decide_True; [done|].
           split; [by left|done].
        -- rewrite lookup_insert_ne by done. rewrite decide_False; [done|].
           intros [Hin Hk]. apply elem_of_cons in Hin as [->|Hin]; [done|].
           apply Hn. done.
Qed.

(** The loop wraps every own property of [p] as a [doubleValue], except a
    property named [__proto__]. *)
Lemma probFields_lookup (p : value) (k : string) :
  Relay.probFields p !! k =
    if decide (k = "__proto__") then None
    else obj1 "doubleValue" <$> own_props p !! k.
Proof.
  unfold Relay.probFields, for_in. rewrite foldl_set_lookup, lookup_empty.
  destruct (own_props p !! k) as [v|] eqn:E.
  - assert (k ∈ (map_to_list (own_props p)).*1) as Hin.
    { apply list_elem_of_fmap. exists (k, v). split; [done|].
      by apply elem_of_map_to_list. }
    destruct (decide (k = "__proto__")) as [->|Hk].
    + rewrite decide_False; [done|]. by intros [_ ?].
    + rewrite decide_True by done. unfold get. by rewrite E.
  - rewrite decide_False; [by case_decide|]. intros [Hin _].
    apply list_elem_of_fmap in Hin as [[k' v] [-> Hin]].
    apply elem_of_map_to_list in Hin. simpl in E. congruence.
Qed.

(** A value with a truthy property is itself truthy. *)
Lemma truthy_get (v : value) (k : string) :
  truthy (get v k) = true -> truthy v = true.
Proof.
  destruct v as [| | b | x | s | l | m]; unfold get; simpl;
    try (rewrite lookup_empty; simpl; discriminate); try done.
  destruct s; [|done]. unfold indexed. simpl. rewrite lookup_empty. done.
Qed.

Lemma get_absent (v : value) (k : string) :
  own_props v !! k = None -> get v k = VUndefined.
Proof. unfold get. by intros ->. Qed.

Lemma get_present (v : value) (k : string) (x : value) :
  own_props v !! k = Some x -> get v k = x.
Proof. unfold get. by intros ->. Qed.

Example probFields_of_object :
  Relay.probFields (VObj {[ "calm" := VNum 0.9; "stressed" := VNum 0.1 ]})
  = {[ "calm" := obj1 "doubleValue" (VNum 0.9);
       "stressed" := obj1 "doubleValue" (VNum 0.1) ]}.
Proof. reflexivity. Qed.

Example probFields_of_array :
  Relay.probFields (VArr [VNum 0.9; VNum 0.1])
  = {[ "0" := obj1 "doubleValue" (VNum 0.9);
       "1" := obj1 "doubleValue" (VNum 0.1) ]}.
Proof. reflexivity. Qed.

Example probFields_of_number : Relay.probFields (VNum 1) = ∅.
Proof. reflexivity. Qed.

Example probFields_drops_proto :
  Relay.probFields (VObj {[ "__proto__" := VNum 1; "calm" := VNum 0.9 ]})
  = {[ "calm" := obj1 "doubleValue" (VNum 0.9) ]}.
Proof. reflexivity. Qed.

Example truthy_cases :
  truthy (VNum 72) = true ∧ truthy (VNum 0) = false ∧ truthy (VNum (-0)) = false
  ∧ truthy (VNum nan) = false ∧ truthy (VStr "") = false
  ∧ truthy (VStr "0") = true ∧ truthy (VObj ∅) = true ∧ truthy (VArr []) = true.
Proof. repeat split. Qed.

Example chars_two_bytes : chars "é" = [VStr "é"].
Proof. reflexivity. Qed.

Example chars_pair :
  chars "😀" = [VStr (surrogate 55357); VStr (surrogate 56832)].
Proof. reflexivity. Qed.

Example probFields_of_string :
  Relay.probFields (VStr "é") = {[ "0" := obj1 "doubleValue" (VStr "é") ]}.
Proof. reflexivity. Qed.

Example stringifiable_cases :
  stringifiable (VStr "u1") = true ∧ stringifiable (VNum 7) = true
  ∧ stringifiable VNull = true ∧ stringifiable (obj1 "a" (VNum 1)) = true
  ∧ stringifiable (obj1 "toString" (VNum 1)) = false
  ∧ stringifiable (VArr [VNull; VStr "a"]) = true
  ∧ stringifiable (VArr [obj1 "toString" VNull]) = false.
Proof. repeat split. Qed.

Lemma stringifiable_env (o : option string) :
  stringifiable (Eff.env_value o) = true.
Proof. by destruct o. Qed.

Lemma evaluable_docPath (cfg : Eff.env) (u : value) (tail : string) :
  evaluable (Relay.docPath cfg u tail) = stringifiable u.
Proof.
  unfold evaluable, Relay.docPath. cbn [forallb].
  rewrite stringifiable_env. cbn [andb]. by rewrite andb_true_r.
Qed.

Lemma evaluable_store_url (cfg : Eff.env) (u : value) (tail : string) :
  evaluable (Relay.store_url cfg (Relay.docPath cfg u tail)) = stringifiable u.
Proof.
  unfold evaluable, Relay.store_url, Relay.docPath. cbn [app forallb].
  rewrite !stringifiable_env. cbn [andb]. by rewrite andb_true_r.
Qed.

End js_facts.

Section date_facts.
Import Date.

Lemma is_digit_digit (z : Z) : is_digit (digit z) = true.
Proof.
  unfold is_digit, digit.
  assert (0 <= z mod 10 < 10)%Z as H by (apply Z.mod_pos_bound; lia).
  rewrite nat_ascii_embedding by lia.
  apply andb_true_intro. split; apply Nat.leb_le; lia.
Qed.

Lemma matches_app (p1 p2 : list cls) (s1 s2 : string) :
  matches p1 s1 = true -> matches p2 s2 = true ->
  matches (p1 ++ p2) (s1 +:+ s2) = true.
Proof.
  revert s1. induction p1 as [|c p1 IH]; intros s1 H1 H2.
  - destruct s1; [done|discriminate].
  - destruct s1 as [|a s1]; [by destruct c|].
    change (String a s1 +:+ s2) with (String a (s1 +:+ s2)).
    destruct c; cbn [matches app] in *; apply andb_prop in H1 as [Ha H1];
      rewrite Ha; by apply IH.
Qed.

Lemma matches_digits (w : nat) (z : Z) :
  matches (replicate w Digit) (digits w z) = true.
Proof.
  induction w as [|w IH]; [done|].
  cbn [replicate digits matches]. by rewrite is_digit_digit.
Qed.

Lemma matches_digits_app (w : nat) (z : Z) (p : list cls) (s : string) :
  matches p s = true ->
  matches (replicate w Digit ++ p) (digits w z +:+ s) = true.
Proof. apply matches_app, matches_digits. Qed.

Lemma matches_char_app (c : ascii) (p : list cls) (s : string) :
  matches p s = true ->
  matches (Char c :: p) (String c EmptyString +:+ s) = true.
Proof.
  intros H. change (String c EmptyString +:+ s) with (String c s).
  cbn [matches]. by rewrite Ascii.eqb_refl.
Qed.

(** Whatever the clock reads, [toISOString] yields the ISO-8601 shape. *)
Lemma toISOString_iso (t : Z) : is_iso8601 (toISOString t) = true.
Proof.
  unfold toISOString. destruct (civil_from_days _) as [[y m] d].
  set (ms := (t mod msPerDay)%Z).
  match goal with
  | |- is_iso8601 (_ +:+ ?s) = true =>
      assert (matches iso_tail s = true) as Htail; [|set (rest := s) in *]
  end.
  { apply matches_char_app, (matches_digits_app 2), matches_char_app,
      (matches_digits_app 2), matches_char_app, (matches_digits_app 2),
      matches_char_app, (matches_digits_app 2), matches_char_app,
      (matches_digits_app 2), matches_char_app, (matches_digits_app 3).
    reflexivity. }
  unfold is_iso8601, year_string.
  destruct ((0 <=? y)%Z && (y <=? 9999)%Z).
  - by rewrite (matches_digits_app 4 y _ _ Htail).
  - destruct (y <? 0)%Z.
    + change (("-" +:+ digits 6 (Z.abs y)) +:+ rest)
        with ("-" +:+ (digits 6 (Z.abs y) +:+ rest)).
      rewrite (matches_char_app "-" _ _ (matches_digits_app 6 _ _ _ Htail)).
      by rewrite !orb_true_r.
    + change (("+" +:+ digits 6 (Z.abs y)) +:+ rest)
        with ("+" +:+ (digits 6 (Z.abs y) +:+ rest)).
      rewrite (matches_char_app "+" _ _ (matches_digits_app 6 _ _ _ Htail)).
      by rewrite !orb_true_r.
Qed.

Example toISOString_epoch : toISOString 0 = "1970-01-01T00:00:00.000Z".
Proof. reflexivity. Qed.

Example toISOString_2023 : toISOString 1700000000000 = "2023-11-14T22:13:20.000Z".
Proof. reflexivity. Qed.

Example toISOString_leap_day :
  toISOString 951868799999 = "2000-02-29T23:59:59.999Z".
Proof. reflexivity. Qed.

Example toISOString_before_epoch : toISOString (-1) = "1969-12-31T23:59:59.999Z".
Proof. reflexivity. Qed.

Example toISOString_year_10000 :
  toISOString 253402300800000 = "+010000-01-01T00:00:00.000Z".
Proof. reflexivity. Qed.

End date_facts.

(** ** Console lines *)

Section console_facts.
Import JS Eff.

Lemma formats_nil (t : template) : formats t [] = true.
Proof. reflexivity. Qed.

(** None of the fixed texts of the handlers holds a directive. *)
Lemma formats_bad_response (f : Relay.file) (v : value) :
  formats [Lit (Relay.log_bad_response (Relay.texts_of f))] [v] = true.
Proof. by destruct f. Qed.

Lemma formats_call_failed (f : Relay.file) (v : value) :
  formats [Lit (Relay.log_call_failed (Relay.texts_of f))] [v] = true.
Proof. by destruct f. Qed.

Lemma formats_error_data (f : Relay.file) (v : value) :
  formats [Lit (Relay.log_error_data (Relay.texts_of f))] [v] = true.
Proof. by destruct f. Qed.

Lemma formats_write_error (f : Relay.file) (v : value) :
  formats [Lit (Relay.log_write_error (Relay.texts_of f))] [v] = true.
Proof. by destruct f. Qed.

Lemma formats_upload_error (v : value) :
  formats [Lit "Firestore error:"] [v] = true.
Proof. reflexivity. Qed.

(** The first line of a relay handler formats alike in every file: the texts
    before the user hold no directive. *)
Lemma formats_received (f : Relay.file) (u b : value) :
  formats [Lit (Relay.log_received (Relay.texts_of f)); Sub u; Lit ":"] [b]
  = negb (format_throws (sketch u +:+ ":") [b]).
Proof. by destruct f. Qed.

Lemma logs_receipt_any (f f' : Relay.file) (req : request) :
  Obs.logs_receipt f req = Obs.logs_receipt f' req.
Proof. unfold Obs.logs_receipt. by rewrite !formats_received. Qed.

Lemma logs_receipt_printable (f : Relay.file) (req : request) :
  Obs.logs_receipt f req = true -> stringifiable (get (body req) "userId") = true.
Proof. unfold Obs.logs_receipt. by intros [? _]%andb_prop. Qed.

(** A user that is a string without [%], or a number, lets the line through
    whatever the body holds. *)
Lemma format_throws_plain (s : string) (args : list value) :
  "%"%char ∉ list_ascii_of_string s -> format_throws s args = false.
Proof.
  revert args. induction s as [|a s IH]; intros args Hs; [by destruct args|].
  cbn [list_ascii_of_string] in Hs. apply not_elem_of_cons in Hs as [Ha Hs].
  destruct args as [|v rest]; [done|]. cbn [format_throws].
  destruct (Ascii.ascii_dec a "%") as [->|Hne]; [done|].
  assert (format_throws s (v :: rest) = false) as Hrec by by apply IH.
  destruct a as [[] [] [] [] [] [] [] []]; try exact Hrec; done.
Qed.

Lemma logs_receipt_plain (f : Relay.file) (req : request) (s : string) :
  get (body req) "userId" = VStr s ->
  "%"%char ∉ list_ascii_of_string s ->
  Obs.logs_receipt f req = true.
Proof.
  intros Hid Hs. unfold Obs.logs_receipt. rewrite formats_received, Hid.
  cbn [stringifiable sketch andb]. apply negb_true_iff, format_throws_plain.
  clear Hid. induction s as [|a s IH].
  - cbn. intros H. apply list_elem_of_singleton in H. discriminate.
  - change (String a s +:+ ":") with (String a (s +:+ ":")).
    cbn [list_ascii_of_string] in *.
    apply not_elem_of_cons in Hs as [Ha Hs]. apply not_elem_of_cons. split; [done|].
    by apply IH.
Qed.

(** Directives at work on an argument that has no string, and on one that
    has. *)
Example format_throws_cases :
  format_throws "user %d:" [obj1 "toString" (VNum 1)] = true
  ∧ format_throws "user %i:" [obj1 "toString" (VNum 1)] = true
  ∧ format_throws "user %f:" [obj1 "toString" (VNum 1)] = true
  ∧ format_throws "user %s:" [obj1 "toString" (VNum 1)] = false
  ∧ format_throws "user %j:" [obj1 "toString" (VNum 1)] = false
  ∧ format_throws "user %%d:" [obj1 "toString" (VNum 1)] = false
  ∧ format_throws "user %x%d:" [obj1 "toString" (VNum 1)] = true
  ∧ format_throws "user %s%d:" [obj1 "toString" (VNum 1)] = false
  ∧ format_throws "user %s%d:" [VNull; VArr [obj1 "toString" VNull]] = true
  ∧ format_throws "user %d:" [obj1 "hr" (VNum 72)] = false
  ∧ format_throws "user %" [obj1 "toString" (VNum 1)] = false
  ∧ format_throws "user %d:" [] = false.
Proof. repeat split. Qed.

End console_facts.

(** ** Running programs *)

Ltac step :=
  cbn [mbind mret Eff.prog_bind Eff.prog_ret Eff.bind Eff.try_catch Eff.run
       fst snd Eff.exn_message Eff.exn_response negb orb].

Ltac logs :=
  unfold Eff.console_log, Eff.console_error, Eff.console;
  rewrite ?formats_nil, ?formats_bad_response, ?formats_call_failed,
    ?formats_error_data, ?formats_write_error, ?formats_upload_error.

Ltac steps := repeat progress (logs; step).

Section run_facts.
Import JS Eff.

Lemma interpolate_ok (t : template) : evaluable t = true -> interpolate t = Ret t.
Proof. unfold interpolate. by intros ->. Qed.

Lemma interpolate_throws (t : template) :
  evaluable t = false ->
  interpolate t = Throw (TypeError "Cannot convert object to primitive value").
Proof. unfold interpolate. by intros ->. Qed.

Lemma evaluable_line (a : string) (v : value) :
  evaluable [Lit a; Sub v] = stringifiable v.
Proof. unfold evaluable. cbn [forallb andb]. by rewrite andb_true_r. Qed.

Lemma evaluable_line3 (a b : string) (v : value) :
  evaluable [Lit a; Sub v; Lit b] = stringifiable v.
Proof. unfold evaluable. cbn [forallb andb]. by rewrite andb_true_r. Qed.

Lemma run_bind {A B : Type} (w : world) (p : prog A) (f : A -> prog B) :
  run w (p ≫= f) =
    match (run w p).2 with
    | inl e => ((run w p).1, inl e)
    | inr a => ((run w p).1 ++ (run w (f a)).1, (run w (f a)).2)
    end.
Proof.
  change (p ≫= f) with (bind p f).
  induction p as [a|e|c k IH|k IH|l msg args k IH]; cbn [bind run fst snd].
  - by destruct (run w (f a)).
  - done.
  - rewrite IH. by destruct (run w (k (network w c))).2.
  - apply IH.
  - rewrite IH. by destruct (run w k).2.
Qed.

Lemma run_try_catch {A : Type} (w : world) (p : prog A) (h : exn -> prog A) :
  run w (try_catch p h) =
    match (run w p).2 with
    | inl e => ((run w p).1 ++ (run w (h e)).1, (run w (h e)).2)
    | inr a => ((run w p).1, inr a)
    end.
Proof.
  induction p as [a|e|c k IH|k IH|l msg args k IH]; cbn [try_catch run fst snd].
  - done.
  - by destruct (run w (h e)).
  - rewrite IH. by destruct (run w (k (network w c))).2.
  - apply IH.
  - rewrite IH. by destruct (run w k).2.
Qed.

(** Given a user with a string and a [data] to read from, the store write
    never throws: a rejected call is logged and dropped. *)
Lemma run_writeToFirestore (f : Relay.file) (cfg : env) (userId data : value)
    (w : world) :
  stringifiable userId = true ->
  nullish data = false ->
  run w (Relay.writeToFirestore f cfg userId data) =
    let c := Obs.store_call f cfg userId (Relay.fields_of data (clock w)) in
    (Called c ::
       match network w c with
       | Resolved _ =>
           [Logged Log [Lit (Relay.log_wrote (Relay.texts_of f)); Sub userId] []]
       | Rejected e =>
           [Logged Error [Lit (Relay.log_write_error (Relay.texts_of f))]
              [match err_response e with
               | Some d => d
               | None => VStr (err_message e)
               end]]
       end,
     inr tt).
Proof.
  intros Hu Hd.
  unfold Relay.writeToFirestore, Obs.store_call, dereferenceable, new_Date.
  rewrite (interpolate_ok (Relay.docPath _ _ _)) by (by rewrite evaluable_docPath).
  rewrite Hd. cbn [mbind prog_bind bind try_catch run].
  rewrite (interpolate_ok (Relay.store_url _ _)) by (by rewrite evaluable_store_url).
  rewrite (interpolate_ok [_; Sub userId]) by (by rewrite evaluable_line).
  unfold axios. steps.
  destruct (network w _) as [d|e]; steps; done.
Qed.

(** Without a string for the user, or without a [data], it throws before its
    [try], and nothing has happened. *)
Lemma run_writeToFirestore_throws (f : Relay.file) (cfg : env) (userId data : value)
    (w : world) :
  stringifiable userId && negb (nullish data) = false ->
  ∃ msg, run w (Relay.writeToFirestore f cfg userId data) = ([], inl (TypeError msg)).
Proof.
  intros H. unfold Relay.writeToFirestore, dereferenceable.
  destruct (stringifiable userId) eqn:Hu.
  - rewrite (interpolate_ok (Relay.docPath _ _ _)) by (by rewrite evaluable_docPath).
    destruct (nullish data); [by eexists|done].
  - rewrite (interpolate_throws (Relay.docPath _ _ _))
      by (by rewrite evaluable_docPath).
    by eexists.
Qed.

(** What a relay handler does with a request that passes validation and
    whose [userId] has a string, by the outcome of the prediction call. *)
Lemma run_handler_validated (f : Relay.file) (cfg : env) (w : world) (req : request) :
  Obs.passes_validation req ->
  Obs.logs_receipt f req = true ->
  run w (Relay.handler f cfg req) =
    let tx := Relay.texts_of f in
    let userId := get (body req) "userId" in
    let pc := Obs.prediction_call (Obs.payload_of req) in
    let received :=
      Logged Log [Lit (Relay.log_received tx); Sub userId; Lit ":"] [body req] in
    match network w pc with
    | Rejected e =>
        (received :: Called pc ::
           Logged Error [Lit (Relay.log_call_failed tx)] [VStr (err_message e)] ::
           match err_response e with
           | Some d => [Logged Error [Lit (Relay.log_error_data tx)] [d]]
           | None => []
           end,
         inr (Relay.failure (Relay.err_call_failed tx)))
    | Resolved data =>
        if truthy (js_and data (get data "stress_level")) then
          if stringifiable (get data "stress_level") then
            (received :: Called pc ::
               Logged Log [Lit (Relay.log_prediction tx); Sub (get data "stress_level")] [] ::
               (run w (Relay.writeToFirestore f cfg userId (Obs.stored_of req data))).1,
             inr (Relay.success (get data "stress_level")))
          else
            (received :: Called pc ::
               [Logged Error [Lit (Relay.log_call_failed tx)]
                  [VStr "Cannot convert object to primitive value"]],
             inr (Relay.failure (Relay.err_call_failed tx)))
        else
          (received :: Called pc ::
             [Logged Error [Lit (Relay.log_bad_response tx)] [data]],
           inr (Relay.failure (Relay.err_bad_response tx)))
    end.
Proof.
  intros (Hm & Hb & Hhr & Hid) [Hu Hfmt]%andb_prop. cbv zeta.
  unfold Relay.handler, destructurable, Obs.payload_of, Obs.prediction_call.
  rewrite decide_True by done. rewrite Hb, Hhr, Hid.
  rewrite (interpolate_ok [_; _; _]) by (by rewrite evaluable_line3).
  unfold axios. logs. step. rewrite Hfmt. step.
  destruct (network w _) as [data|e]; step.
  - destruct (truthy (js_and data (get data "stress_level"))); steps; [|done].
    destruct (stringifiable (get data "stress_level")) eqn:Hp.
    + rewrite (interpolate_ok [_; Sub (get data _)]) by (by rewrite evaluable_line).
      steps.
      unfold Obs.stored_of. rewrite run_try_catch, run_bind.
      rewrite !run_writeToFirestore by done.
      cbv zeta. cbn [fst snd run mret prog_ret app]. by rewrite ?app_nil_r.
    + rewrite (interpolate_throws [_; Sub (get data _)])
        by (by rewrite evaluable_line).
      steps. done.
  - steps. destruct (err_response e); steps; done.
Qed.

(** A [userId] without a string, or one whose directive asks [req.body] for
    a number it cannot give, makes the log line before the [try] throw. *)
Lemma run_handler_unprintable (f : Relay.file) (cfg : env) (w : world) (req : request) :
  Obs.passes_validation req ->
  Obs.logs_receipt f req = false ->
  run w (Relay.handler f cfg req)
    = ([], inl (TypeError "Cannot convert object to primitive value")).
Proof.
  intros (Hm & Hb & Hhr & Hid) Hlog.
  unfold Relay.handler, destructurable.
  rewrite decide_True by done. rewrite Hb, Hhr, Hid.
  unfold Obs.logs_receipt in Hlog.
  destruct (stringifiable (get (body req) "userId")) eqn:Hu.
  - rewrite (interpolate_ok [_; _; _]) by (by rewrite evaluable_line3).
    logs. step. cbn [andb] in Hlog. by rewrite Hlog.
  - by rewrite (interpolate_throws [_; _; _]) by (by rewrite evaluable_line3).
Qed.

(** The two ways the first log line of a relay handler throws, and two
    requests close to them that go through. *)
Example receipt_throws :
  run Scenario.all_well
    (Relay.handler Relay.api_index_1 Scenario.configured
       (Request "POST" (VObj {[ "hr" := VNum 72; "userId" := obj1 "toString" (VNum 1) ]})))
  = ([], inl (TypeError "Cannot convert object to primitive value"))
  ∧ run Scenario.all_well
      (Relay.handler Relay.part_000 Scenario.configured
         (Request "POST" (VObj {[ "hr" := VNum 72; "userId" := VStr "%d";
                                  "toString" := VNum 1 ]})))
    = ([], inl (TypeError "Cannot convert object to primitive value"))
  ∧ (run Scenario.all_well
       (Relay.handler Relay.part_000 Scenario.configured
          (Request "POST" (VObj {[ "hr" := VNum 72; "userId" := VStr "%s";
                                   "toString" := VNum 1 ]})))).2
    = inr (Relay.success (VStr "calm"))
  ∧ (run Scenario.all_well
       (Relay.handler Relay.part_000 Scenario.configured
          (Request "POST" (VObj {[ "hr" := VNum 72; "userId" := VStr "%d" ]})))).2
    = inr (Relay.success (VStr "calm")).
Proof. repeat split. Qed.

(** A reply whose [stress_level] has no string is caught by the handler's
    [try]; a [data] of [null] makes [writeToFirestore] throw before its own. *)
Example unprintable_prediction :
  run (Scenario.world_of (Resolved (obj1 "stress_level" (obj1 "toString" (VNum 1))))
         (Resolved (VObj ∅)))
    (Relay.handler Relay.api_index_1 Scenario.configured
       (Request "POST" Scenario.reading_u1))
  = ([ Logged Log [Lit "[Vercel] Received data for user "; Sub (VStr "u1"); Lit ":"]
         [Scenario.reading_u1];
       Called (Obs.prediction_call (Relay.apiPayload (VNum 72) (VNum 45) (VNum 36.6)));
       Logged Error [Lit "[Vercel] Error calling prediction API:"]
         [VStr "Cannot convert object to primitive value"] ],
     inr (Relay.failure "API call failed"))
  ∧ run Scenario.all_well
      (Relay.writeToFirestore Relay.api_index_1 Scenario.configured (VStr "u1") VNull)
    = ([], inl (TypeError "Cannot read properties of undefined or null"))
  ∧ run Scenario.all_well
      (Relay.writeToFirestore Relay.api_index_1 Scenario.configured
         (obj1 "toString" (VNum 1)) (VObj ∅))
    = ([], inl (TypeError "Cannot convert object to primitive value")).
Proof. repeat split. Qed.

End run_facts.

Section upload_facts.
Import JS Eff.

(** What the raw-upload handler does once it is in its [try] with a user that
    has a string, by the outcome of the write. *)
Lemma run_upload (cfg : env) (w : world) (req : request) :
  Obs.reaches_write cfg req ->
  stringifiable (Obs.upload_user req) = true ->
  run w (Upload.handler cfg req) =
    let c := Obs.upload_call cfg (Obs.upload_user req)
               (Obs.upload_fields req (clock w)) in
    match network w c with
    | Resolved _ => ([Called c], inr Upload.uploaded)
    | Rejected e =>
        ([Called c;
          Logged Error [Lit "Firestore error:"]
            [js_or (default VUndefined (err_response e)) (VStr (err_message e))]],
         inr Upload.upload_failed)
    end.
Proof.
  intros (Hm & Hb & Hp & Hk) Hu. cbv zeta.
  unfold Upload.handler, destructurable, Obs.upload_call, Obs.upload_user,
    Obs.upload_fields in *.
  rewrite decide_True by done. rewrite Hb, Hp, Hk.
  rewrite (interpolate_ok (Relay.docPath _ _ _)) by (by rewrite evaluable_docPath).
  unfold new_Date. step.
  rewrite (interpolate_ok (Relay.store_url _ _)) by (by rewrite evaluable_store_url).
  unfold axios. steps.
  destruct (network w _) as [d|e]; steps; done.
Qed.

(** A user without a string makes the path throw inside the [try]: no call
    is made, the error is logged and the answer is the 500 of a failed
    upload. *)
Lemma run_upload_unprintable (cfg : env) (w : world) (req : request) :
  Obs.reaches_write cfg req ->
  stringifiable (Obs.upload_user req) = false ->
  run w (Upload.handler cfg req) =
    ([Logged Error [Lit "Firestore error:"]
        [VStr "Cannot convert object to primitive value"]],
     inr Upload.upload_failed).
Proof.
  intros (Hm & Hb & Hp & Hk) Hu.
  unfold Upload.handler, destructurable, Obs.upload_user in *.
  rewrite decide_True by done. rewrite Hb, Hp, Hk.
  rewrite (interpolate_throws (Relay.docPath _ _ _))
    by (by rewrite evaluable_docPath).
  steps. done.
Qed.

Example upload_unprintable_user :
  run Scenario.all_well
    (Upload.handler Scenario.configured
       (Request "POST" (obj1 "userId" (obj1 "toString" (VNum 1)))))
  = ([ Logged Error [Lit "Firestore error:"]
         [VStr "Cannot convert object to primitive value"] ],
     inr (Response 500 ∅ (Some (obj1 "error" (VStr "Failed to upload data"))))).
Proof. reflexivity. Qed.

End upload_facts.

(** ** Telling the calls apart *)

Section obs_facts.
Import JS Eff.

Lemma store_call_to_store f cfg u fields :
  Obs.to_document_store (Obs.store_call f cfg u fields) = true.
Proof. reflexivity. Qed.

Lemma store_call_not_prediction f cfg u fields :
  Obs.to_prediction_service (Obs.store_call f cfg u fields) = false.
Proof. reflexivity. Qed.

Lemma upload_call_to_store cfg u fields :
  Obs.to_document_store (Obs.upload_call cfg u fields) = true.
Proof. reflexivity. Qed.

Lemma upload_call_not_prediction cfg u fields :
  Obs.to_prediction_service (Obs.upload_call cfg u fields) = false.
Proof. reflexivity. Qed.

Lemma prediction_call_to_prediction p :
  Obs.to_prediction_service (Obs.prediction_call p) = true.
Proof. reflexivity. Qed.

Lemma prediction_call_not_store p :
  Obs.to_document_store (Obs.prediction_call p) = false.
Proof. reflexivity. Qed.

Lemma store_writes_logged l msg args t :
  Obs.store_writes (Logged l msg args :: t) = Obs.store_writes t.
Proof. reflexivity. Qed.

Lemma store_writes_called c t :
  Obs.store_writes (Called c :: t) =
    if Obs.to_document_store c then c :: Obs.store_writes t else Obs.store_writes t.
Proof.
  unfold Obs.store_writes.
  change (outbound (Called c :: t)) with (c :: outbound t). rewrite filter_cons.
  destruct (Obs.to_document_store c); by case_decide.
Qed.

Lemma prediction_calls_logged l msg args t :
  Obs.prediction_calls (Logged l msg args :: t) = Obs.prediction_calls t.
Proof. reflexivity. Qed.

Lemma prediction_calls_called c t :
  Obs.prediction_calls (Called c :: t) =
    if Obs.to_prediction_service c
    then c :: Obs.prediction_calls t else Obs.prediction_calls t.
Proof.
  unfold Obs.prediction_calls.
  change (outbound (Called c :: t)) with (c :: outbound t). rewrite filter_cons.
  destruct (Obs.to_prediction_service c); by case_decide.
Qed.

End obs_facts.

Create Rewrite HintDb obs.

Lemma outbound_logged l msg args t :
  Eff.outbound (Eff.Logged l msg args :: t) = Eff.outbound t.
Proof. reflexivity. Qed.

Lemma outbound_called c t :
  Eff.outbound (Eff.Called c :: t) = c :: Eff.outbound t.
Proof. reflexivity. Qed.

#[local] Hint Rewrite outbound_logged outbound_called : obs.
#[local] Hint Rewrite store_writes_logged store_writes_called
  prediction_calls_logged prediction_calls_called
  store_call_to_store store_call_not_prediction
  upload_call_to_store upload_call_not_prediction
  prediction_call_to_prediction prediction_call_not_store : obs.

(** ** The document the relay handlers write *)

Section fields_facts.
Import JS Eff.

Lemma fields_of_stress_level data now :
  Relay.fields_of data now !! "stress_level" =
    Some (obj1 "stringValue" (get data "stress_level")).
Proof. unfold Relay.fields_of. destruct (truthy _); by simplify_map_eq. Qed.

Lemma fields_of_hr data now :
  Relay.fields_of data now !! "hr" = Some (obj1 "doubleValue" (get data "hr")).
Proof. unfold Relay.fields_of. destruct (truthy _); by simplify_map_eq. Qed.

Lemma fields_of_timestamp data now :
  Relay.fields_of data now !! "timestamp" =
    Some (obj1 "timestampValue" (VStr (Date.toISOString now))).
Proof. unfold Relay.fields_of. destruct (truthy _); by simplify_map_eq. Qed.

Lemma fields_of_probabilities data now :
  Relay.fields_of data now !! "probabilities" =
    if truthy (get data "probabilities")
    then Some (obj1 "mapValue"
                 (obj1 "fields" (VObj (Relay.probFields (get data "probabilities")))))
    else None.
Proof. unfold Relay.fields_of. destruct (truthy _); by simplify_map_eq. Qed.

Lemma stored_of_stress_level req data :
  get (Obs.stored_of req data) "stress_level" = get data "stress_level".
Proof. unfold Obs.stored_of, get at 1. cbn [own_props]. by simplify_map_eq. Qed.

Lemma stored_of_hr req data :
  get (Obs.stored_of req data) "hr" = get (body req) "hr".
Proof. unfold Obs.stored_of, get at 1. cbn [own_props]. by simplify_map_eq. Qed.

Lemma stored_of_probabilities req data :
  get (Obs.stored_of req data) "probabilities" =
    js_or (get data "probabilities") VNull.
Proof. unfold Obs.stored_of, get at 1. cbn [own_props]. by simplify_map_eq. Qed.

End fields_facts.

(** ** The ways a validated relay request with a printable user ends *)

Section relay_facts.
Import JS Eff.

Variables (f : Relay.file) (cfg : env) (w : world) (req : request).
Hypothesis Hvalid : Obs.passes_validation req.
Hypothesis Hprintable : Obs.logs_receipt f req = true.

Let pc : call := Obs.prediction_call (Obs.payload_of req).
Let tx : Relay.texts := Relay.texts_of f.

(** The prediction call is rejected. *)
Lemma relay_rejected (e : axios_error) :
  network w pc = Rejected e ->
  (run w (Relay.handler f cfg req)).2
    = inr (Relay.failure (Relay.err_call_failed tx))
  ∧ outbound (run w (Relay.handler f cfg req)).1 = [pc].
Proof.
  intros H. rewrite (run_handler_validated f cfg w req Hvalid Hprintable).
  cbv zeta. fold pc. rewrite H. cbn [fst snd]. split; [done|].
  autorewrite with obs. by destruct (err_response e).
Qed.

(** The prediction call resolves, with a reply whose [stress_level] is not
    truthy. *)
Lemma relay_bad_response (data : value) :
  network w pc = Resolved data ->
  truthy (get data "stress_level") = false ->
  run w (Relay.handler f cfg req)
    = ([ Logged Log [Lit (Relay.log_received tx); Sub (get (body req) "userId"); Lit ":"]
           [body req];
         Called pc;
         Logged Error [Lit (Relay.log_bad_response tx)] [data] ],
       inr (Relay.failure (Relay.err_bad_response tx))).
Proof.
  intros H Hlevel. rewrite (run_handler_validated f cfg w req Hvalid Hprintable).
  cbv zeta. fold pc. rewrite H.
  assert (truthy (js_and data (get data "stress_level")) = false) as ->; [|done].
  unfold js_and. by destruct (truthy data) eqn:E.
Qed.

(** The prediction call resolves, with a truthy [stress_level] that has no
    string: the log line throws inside the [try]. *)
Lemma relay_unprintable_prediction (data : value) :
  network w pc = Resolved data ->
  truthy (get data "stress_level") = true ->
  stringifiable (get data "stress_level") = false ->
  (run w (Relay.handler f cfg req)).2
    = inr (Relay.failure (Relay.err_call_failed tx))
  ∧ outbound (run w (Relay.handler f cfg req)).1 = [pc].
Proof.
  intros H Hlevel Hp. rewrite (run_handler_validated f cfg w req Hvalid Hprintable).
  cbv zeta. fold pc. rewrite H, Hp.
  assert (truthy (js_and data (get data "stress_level")) = true) as ->.
  { unfold js_and. by rewrite (truthy_get _ _ Hlevel). }
  done.
Qed.

(** The prediction call resolves, with a truthy [stress_level] that has a
    string. *)
Lemma relay_predicted (data : value) :
  network w pc = Resolved data ->
  truthy (get data "stress_level") = true ->
  stringifiable (get data "stress_level") = true ->
  (run w (Relay.handler f cfg req)).2
    = inr (Relay.success (get data "stress_level"))
  ∧ outbound (run w (Relay.handler f cfg req)).1
    = [ pc;
        Obs.store_call f cfg (get (body req) "userId")
          (Relay.fields_of (Obs.stored_of req data) (clock w)) ].
Proof.
  intros H Hlevel Hp. rewrite (run_handler_validated f cfg w req Hvalid Hprintable).
  cbv zeta. fold pc. rewrite H, Hp.
  assert (truthy (js_and data (get data "stress_level")) = true) as ->.
  { unfold js_and. by rewrite (truthy_get _ _ Hlevel). }
  rewrite run_writeToFirestore by (done || by eapply logs_receipt_printable).
  cbv zeta. cbn [fst snd]. split; [done|].
  autorewrite with obs. by destruct (network w (Obs.store_call _ _ _ _)).
Qed.

(** The whole trace of that last course. *)
Lemma relay_predicted_trace (data : value) :
  network w pc = Resolved data ->
  truthy (get data "stress_level") = true ->
  stringifiable (get data "stress_level") = true ->
  (run w (Relay.handler f cfg req)).1
    = Logged Log [Lit (Relay.log_received tx); Sub (get (body req) "userId"); Lit ":"]
        [body req]
      :: Called pc
      :: Logged Log [Lit (Relay.log_prediction tx); Sub (get data "stress_level")] []
      :: (run w (Relay.writeToFirestore f cfg (get (body req) "userId")
                   (Obs.stored_of req data))).1.
Proof.
  intros H Hlevel Hp. rewrite (run_handler_validated f cfg w req Hvalid Hprintable).
  cbv zeta. fold pc. rewrite H, Hp.
  assert (truthy (js_and data (get data "stress_level")) = true) as ->.
  { unfold js_and. by rewrite (truthy_get _ _ Hlevel). }
  done.
Qed.

End relay_facts.

Section split_facts.
Import JS Eff.

(** Of the two calls of a successful relay, one goes to each service. *)
Lemma store_writes_of_relay t p sc :
  outbound t = [Obs.prediction_call p; sc] ->
  Obs.to_document_store sc = true ->
  Obs.store_writes t = [sc].
Proof.
  intros Ht Hsc. unfold Obs.store_writes. rewrite Ht, !filter_cons, filter_nil.
  rewrite prediction_call_not_store, Hsc.
  rewrite decide_False by done. by rewrite decide_True.
Qed.

Lemma store_writes_of_prediction_only t p :
  outbound t = [Obs.prediction_call p] -> Obs.store_writes t = [].
Proof.
  intros Ht. unfold Obs.store_writes. rewrite Ht, filter_cons, filter_nil.
  rewrite prediction_call_not_store. by rewrite decide_False.
Qed.

Lemma prediction_calls_of_relay t p sc :
  outbound t = Obs.prediction_call p :: sc ->
  Forall (fun c => Obs.to_prediction_service c = false) sc ->
  Obs.prediction_calls t = [Obs.prediction_call p].
Proof.
  intros Ht Hsc. unfold Obs.prediction_calls. rewrite Ht, filter_cons.
  rewrite prediction_call_to_prediction, decide_True by done. f_equal.
  clear Ht. induction Hsc as [|c l Hc _ IH]; [done|].
  rewrite filter_cons, Hc, decide_False by done. exact IH.
Qed.

End split_facts.

(** ** The courses an invocation can take *)

Section relay_courses.
Import JS Eff.

Lemma run_handler_not_post f cfg w req :
  method req ≠ "POST" ->
  run w (Relay.handler f cfg req) = ([], inr Relay.method_not_allowed).
Proof. intros Hm. unfold Relay.handler. by rewrite decide_False. Qed.

Lemma run_handler_no_body f cfg w req :
  method req = "POST" -> nullish (body req) = true ->
  run w (Relay.handler f cfg req)
    = ([], inl (TypeError "Cannot destructure property of undefined or null")).
Proof.
  intros Hm Hb. unfold Relay.handler, destructurable.
  rewrite decide_True by done. by rewrite Hb.
Qed.

Lemma run_handler_missing f cfg w req :
  method req = "POST" -> nullish (body req) = false ->
  truthy (get (body req) "hr") && truthy (get (body req) "userId") = false ->
  run w (Relay.handler f cfg req) = ([], inr Relay.missing_fields).
Proof.
  intros Hm Hb Hmissing. unfold Relay.handler, destructurable.
  rewrite decide_True by done. rewrite Hb. cbn [mbind prog_bind bind].
  assert (negb (truthy (get (body req) "hr"))
          || negb (truthy (get (body req) "userId")) = true) as ->; [|done].
  by rewrite <- negb_andb, Hmissing.
Qed.

(** Every invocation of a relay handler takes one of eight courses. *)
Lemma relay_courses f cfg w req :
  let r := run w (Relay.handler f cfg req) in
  let pc := Obs.prediction_call (Obs.payload_of req) in
  (method req ≠ "POST" ∧ r = ([], inr Relay.method_not_allowed))
  ∨ (method req = "POST" ∧ nullish (body req) = true
     ∧ ∃ msg, r = ([], inl (TypeError msg)))
  ∨ (method req = "POST" ∧ nullish (body req) = false
     ∧ truthy (get (body req) "hr") && truthy (get (body req) "userId") = false
     ∧ r = ([], inr Relay.missing_fields))
  ∨ (Obs.passes_validation req
     ∧ Obs.logs_receipt f req = false
     ∧ ∃ msg, r = ([], inl (TypeError msg)))
  ∨ (Obs.passes_validation req
     ∧ Obs.logs_receipt f req = true
     ∧ ∃ e, network w pc = Rejected e
          ∧ r.2 = inr (Relay.failure (Relay.err_call_failed (Relay.texts_of f)))
          ∧ outbound r.1 = [pc])
  ∨ (Obs.passes_validation req
     ∧ Obs.logs_receipt f req = true
     ∧ ∃ data, network w pc = Resolved data
          ∧ truthy (get data "stress_level") = false
          ∧ r.2 = inr (Relay.failure (Relay.err_bad_response (Relay.texts_of f)))
          ∧ outbound r.1 = [pc])
  ∨ (Obs.passes_validation req
     ∧ Obs.logs_receipt f req = true
     ∧ ∃ data, network w pc = Resolved data
          ∧ truthy (get data "stress_level") = true
          ∧ stringifiable (get data "stress_level") = false
          ∧ r.2 = inr (Relay.failure (Relay.err_call_failed (Relay.texts_of f)))
          ∧ outbound r.1 = [pc])
  ∨ (Obs.passes_validation req
     ∧ Obs.logs_receipt f req = true
     ∧ ∃ data, network w pc = Resolved data
          ∧ truthy (get data "stress_level") = true
          ∧ stringifiable (get data "stress_level") = true
          ∧ r.2 = inr (Relay.success (get data "stress_level"))
          ∧ outbound r.1
            = [pc; Obs.store_call f cfg (get (body req) "userId")
                     (Relay.fields_of (Obs.stored_of req data) (clock w))]).
Proof.
  intros r pc. subst r.
  destruct (decide (method req = "POST")) as [Hm|Hm];
    [|left; split; [done|by apply run_handler_not_post]].
  right. destruct (nullish (body req)) eqn:Hb;
    [left; repeat split; try done; eexists; by apply run_handler_no_body|].
  right.
  destruct (truthy (get (body req) "hr") && truthy (get (body req) "userId")) eqn:Ht;
    [|left; repeat split; try done; by apply run_handler_missing].
  right. apply andb_prop in Ht as [Hhr Hid].
  assert (Obs.passes_validation req) as Hv by done.
  destruct (Obs.logs_receipt f req) eqn:Hu;
    [|left; repeat split; try done; eexists; by apply run_handler_unprintable].
  right.
  destruct (network w pc) as [data|e] eqn:Hreply.
  - right. destruct (truthy (get data "stress_level")) eqn:Hlevel.
    + right. destruct (stringifiable (get data "stress_level")) eqn:Hp.
      * right. do 2 (split; [done|]). exists data.
        destruct (relay_predicted f cfg w req Hv Hu data Hreply Hlevel Hp)
          as [Hres Hout].
        done.
      * left. do 2 (split; [done|]). exists data.
        destruct (relay_unprintable_prediction f cfg w req Hv Hu data Hreply Hlevel Hp)
          as [Hres Hout].
        done.
    + left. do 2 (split; [done|]). exists data.
      rewrite (relay_bad_response f cfg w req Hv Hu data Hreply Hlevel). done.
  - left. do 2 (split; [done|]). exists e.
    destruct (relay_rejected f cfg w req Hv Hu e Hreply) as [Hres Hout]. done.
Qed.

(** A validated request gets as far as the prediction call exactly when its
    first log line is written. *)
Lemma asked_printable f cfg w req (c : call) :
  Obs.passes_validation req ->
  c ∈ outbound (run w (Relay.handler f cfg req)).1 ->
  Obs.logs_receipt f req = true.
Proof.
  intros Hv Hin. destruct (Obs.logs_receipt f req) eqn:Hu; [done|].
  rewrite (run_handler_unprintable f cfg w req Hv Hu) in Hin.
  by apply elem_of_nil in Hin.
Qed.

(** Whatever the services do, a validated relay request whose first log line
    is written causes exactly one call to the prediction service. *)
Lemma relay_prediction_calls (f : Relay.file) (cfg : env) (w : world) (req : request) :
  Obs.passes_validation req ->
  Obs.logs_receipt f req = true ->
  Obs.prediction_calls (run w (Relay.handler f cfg req)).1
    = [Obs.prediction_call (Obs.payload_of req)].
Proof.
  intros Hv Hu.
  destruct (network w (Obs.prediction_call (Obs.payload_of req))) as [data|e] eqn:Hreply.
  - destruct (truthy (get data "stress_level")) eqn:Hlevel.
    + destruct (stringifiable (get data "stress_level")) eqn:Hp.
      * destruct (relay_predicted f cfg w req Hv Hu data Hreply Hlevel Hp) as [_ Hout].
        apply (prediction_calls_of_relay _ _ _ Hout). repeat constructor.
      * destruct (relay_unprintable_prediction f cfg w req Hv Hu data Hreply Hlevel Hp)
          as [_ Hout].
        by apply (prediction_calls_of_relay _ _ _ Hout).
    + rewrite (relay_bad_response f cfg w req Hv Hu data Hreply Hlevel). reflexivity.
  - destruct (relay_rejected f cfg w req Hv Hu e Hreply) as [_ Hout].
    by apply (prediction_calls_of_relay _ _ _ Hout).
Qed.

Lemma truthy_js_or_null (v : value) : truthy (js_or v VNull) = truthy v.
Proof. unfold js_or. by destruct (truthy v) eqn:E. Qed.

End relay_courses.

Section upload_courses.
Import JS Eff.

Lemma run_upload_not_post cfg w req :
  method req ≠ "POST" ->
  run w (Upload.handler cfg req) = ([], inr Upload.method_not_allowed).
Proof. intros Hm. unfold Upload.handler. by rewrite decide_False. Qed.

Lemma run_upload_no_body cfg w req :
  method req = "POST" -> nullish (body req) = true ->
  run w (Upload.handler cfg req)
    = ([], inl (TypeError "Cannot destructure property of undefined or null")).
Proof.
  intros Hm Hb. unfold Upload.handler, destructurable.
  rewrite decide_True by done. by rewrite Hb.
Qed.

Lemma run_upload_no_credentials cfg w req :
  method req = "POST" -> nullish (body req) = false ->
  truthy (env_value (FIREBASE_PROJECT_ID cfg))
  && truthy (env_value (FIREBASE_API_KEY cfg)) = false ->
  run w (Upload.handler cfg req) = ([], inr Upload.credentials_missing).
Proof.
  intros Hm Hb Hcred. unfold Upload.handler, destructurable.
  rewrite decide_True by done. rewrite Hb. cbn [mbind prog_bind bind].
  assert (negb (truthy (env_value (FIREBASE_PROJECT_ID cfg)))
          || negb (truthy (env_value (FIREBASE_API_KEY cfg))) = true) as ->; [|done].
  by rewrite <- negb_andb, Hcred.
Qed.

(** The raw-upload handler makes a call only from inside its [try], with a
    user that has a string. *)
Lemma upload_called cfg w req (c : call) :
  c ∈ outbound (run w (Upload.handler cfg req)).1 ->
  Obs.reaches_write cfg req ∧ stringifiable (Obs.upload_user req) = true.
Proof.
  intros Hin.
  destruct (decide (method req = "POST")) as [Hm|Hm];
    [|rewrite run_upload_not_post in Hin by done; by apply elem_of_nil in Hin].
  destruct (nullish (body req)) eqn:Hb;
    [rewrite run_upload_no_body in Hin by done; by apply elem_of_nil in Hin|].
  destruct (truthy (env_value (FIREBASE_PROJECT_ID cfg))
            && truthy (env_value (FIREBASE_API_KEY cfg))) eqn:Hcred;
    [|rewrite run_upload_no_credentials in Hin by done; by apply elem_of_nil in Hin].
  apply andb_prop in Hcred as [Hp Hk].
  assert (Obs.reaches_write cfg req) as Hr by done.
  split; [done|].
  destruct (stringifiable (Obs.upload_user req)) eqn:Hu; [done|].
  rewrite (run_upload_unprintable cfg w req Hr Hu) in Hin.
  by apply elem_of_nil in Hin.
Qed.

End upload_courses.

(** ** The claims *)

Section claims.
Import JS Eff.

Lemma reading_u1_validated :
  Obs.passes_validation (Request "POST" Scenario.reading_u1).
Proof. by repeat split. Qed.

Lemma reading_u1_logged (f : Relay.file) :
  Obs.logs_receipt f (Request "POST" Scenario.reading_u1) = true.
Proof. by destruct f. Qed.

(** C1: a POST of [{ hr: 72, hrv: 45, bt: 36.6, userId: "u1" }] that the
    prediction service answers with
    [{ stress_level: "calm", probabilities: { calm: 0.9, stressed: 0.1 } }]
    is answered 200 with [{ success: true, prediction: "calm" }], and causes
    exactly one document-store write, whose field map holds [stress_level] as
    the stringValue "calm", [hr] as the doubleValue 72, [timestamp] as a
    timestampValue that is the clock's reading in ISO-8601, and
    [probabilities] as a mapValue of the doubleValues calm = 0.9 and
    stressed = 0.1.  This holds for each of the four relay files. *)
Theorem relay_calm_reading (f : Relay.file) (cfg : env) (w : world) :
  network w (Obs.prediction_call (Relay.apiPayload (VNum 72) (VNum 45) (VNum 36.6)))
    = Resolved Scenario.calm_reply ->
  let r := run w (Relay.handler f cfg (Request "POST" Scenario.reading_u1)) in
  r.2 = inr (Response 200 ∅
               (Some (VObj {[ "success" := VBool true; "prediction" := VStr "calm" ]})))
  ∧ ∃ (fields : gmap string value) (ts : string),
      Obs.store_writes r.1 = [Obs.store_call f cfg (VStr "u1") fields]
      ∧ fields !! "stress_level" = Some (obj1 "stringValue" (VStr "calm"))
      ∧ fields !! "hr" = Some (obj1 "doubleValue" (VNum 72))
      ∧ fields !! "timestamp" = Some (obj1 "timestampValue" (VStr ts))
      ∧ ts = Date.toISOString (clock w)
      ∧ Date.is_iso8601 ts = true
      ∧ fields !! "probabilities" =
          Some (obj1 "mapValue" (obj1 "fields" (VObj
            {[ "calm" := obj1 "doubleValue" (VNum 0.9);
               "stressed" := obj1 "doubleValue" (VNum 0.1) ]}))).
Proof.
  intros Hreply r. subst r.
  destruct (relay_predicted f cfg w _ reading_u1_validated (reading_u1_logged f)
              Scenario.calm_reply Hreply eq_refl eq_refl) as [Hres Hout].
  split; [exact Hres|].
  exists (Relay.fields_of
            (Obs.stored_of (Request "POST" Scenario.reading_u1) Scenario.calm_reply)
            (clock w)), (Date.toISOString (clock w)).
  split; [exact (store_writes_of_relay _ _ _ Hout (store_call_to_store _ _ _ _))|].
  rewrite fields_of_stress_level, fields_of_hr, fields_of_timestamp,
    fields_of_probabilities, toISOString_iso.
  rewrite stored_of_stress_level, stored_of_hr, stored_of_probabilities.
  repeat split.
Qed.

Lemma relay_calm_reading_witness :
  (run Scenario.all_well
     (Relay.handler Relay.api_index_1 Scenario.configured
        (Request "POST" Scenario.reading_u1))).2
  = inr (Response 200 ∅
           (Some (VObj {[ "success" := VBool true; "prediction" := VStr "calm" ]}))).
Proof.
  exact (proj1 (relay_calm_reading Relay.api_index_1 Scenario.configured
                  Scenario.all_well eq_refl)).
Defined.

(** C2 (as amended): in each of the four relay files, a POST request whose
    body is a value (not [null] or [undefined]) in which [hr] or [userId] is
    missing or falsy is answered 400 with the body
    [{ error: "Missing required fields: hr, userId" }], and nothing is sent
    out: no call to the prediction service, none to the document store. *)
Theorem relay_missing_fields (f : Relay.file) (cfg : env) (w : world) (req : request) :
  method req = "POST" ->
  nullish (body req) = false ->
  truthy (get (body req) "hr") = false ∨ truthy (get (body req) "userId") = false ->
  run w (Relay.handler f cfg req) = ([], inr Relay.missing_fields)
  ∧ statusCode Relay.missing_fields = 400%Z
  ∧ sent Relay.missing_fields
    = Some (obj1 "error" (VStr "Missing required fields: hr, userId"))
  ∧ outbound (run w (Relay.handler f cfg req)).1 = [].
Proof.
  intros Hm Hb Hmissing.
  assert (run w (Relay.handler f cfg req) = ([], inr Relay.missing_fields)) as Hrun.
  { unfold Relay.handler, destructurable. rewrite decide_True by done. rewrite Hb.
    cbn [mbind prog_bind bind].
    assert (negb (truthy (get (body req) "hr"))
            || negb (truthy (get (body req) "userId")) = true) as ->; [|done].
    destruct Hmissing as [-> | ->]; [done|]. apply orb_true_r. }
  by rewrite Hrun.
Qed.

Lemma relay_missing_fields_witness :
  run Scenario.all_well
    (Relay.handler Relay.part_000 Scenario.configured
       (Request "POST" (obj1 "hrv" (VNum 45))))
  = ([], inr Relay.missing_fields).
Proof.
  exact (proj1 (relay_missing_fields Relay.part_000 Scenario.configured
                  Scenario.all_well (Request "POST" (obj1 "hrv" (VNum 45)))
                  eq_refl eq_refl (or_introl eq_refl))).
Defined.

(** C2, as stated, fails.  The raw-upload handler takes a POST body with
    neither [hr] nor [userId], files it under "user1" and answers 200; a relay
    handler answers a GET with an empty body 405; and a POST without body makes
    the destructuring throw. *)
Lemma missing_fields_not_always_400 :
  get (obj1 "spo2" (VNum 98)) "hr" = VUndefined
  ∧ get (obj1 "spo2" (VNum 98)) "userId" = VUndefined
  ∧ run Scenario.all_well
      (Upload.handler Scenario.configured (Request "POST" (obj1 "spo2" (VNum 98))))
    = ([Called (Obs.upload_call Scenario.configured (VStr "user1")
                  (Upload.fields_of VUndefined (VNum 98) VUndefined 1700000000000))],
       inr Upload.uploaded)
  ∧ statusCode Upload.uploaded = 200%Z
  ∧ run Scenario.all_well
      (Relay.handler Relay.api_index_1 Scenario.configured (Request "GET" (VObj ∅)))
    = ([], inr Relay.method_not_allowed)
  ∧ statusCode Relay.method_not_allowed = 405%Z
  ∧ run Scenario.all_well
      (Relay.handler Relay.api_index_1 Scenario.configured (Request "POST" VNull))
    = ([], inl (TypeError "Cannot destructure property of undefined or null")).
Proof. repeat split. Qed.

(** C3: in each relay file, when a request passes validation and the
    prediction service, asked by the handler, answers 2xx with a body that has
    no [stress_level], the answer is 500 with the body
    [{ error: "Bad API response" }] in the first document of
    [src/api/index.js] and [{ error: "Internal - Bad API Response" }] in the
    other three, no document-store write is made, and the call to the
    prediction service is the only one. *)
Theorem relay_missing_stress_level (f : Relay.file) (cfg : env) (w : world)
    (req : request) (data : value) :
  Obs.passes_validation req ->
  Obs.prediction_call (Obs.payload_of req)
    ∈ outbound (run w (Relay.handler f cfg req)).1 ->
  network w (Obs.prediction_call (Obs.payload_of req)) = Resolved data ->
  own_props data !! "stress_level" = None ->
  let r := run w (Relay.handler f cfg req) in
  r.2 = inr (Response 500 ∅
               (Some (obj1 "error"
                        (VStr match f with
                              | Relay.api_index_1 => "Bad API response"
                              | _ => "Internal - Bad API Response"
                              end))))
  ∧ Obs.store_writes r.1 = []
  ∧ outbound r.1 = [Obs.prediction_call (Obs.payload_of req)].
Proof.
  intros Hv Hasked Hreply Hnone r. subst r.
  pose proof (asked_printable f cfg w req _ Hv Hasked) as Hu.
  rewrite (relay_bad_response f cfg w req Hv Hu data Hreply).
  - by destruct f.
  - by rewrite (get_absent _ _ Hnone).
Qed.

Lemma relay_missing_stress_level_witness :
  (run Scenario.no_level
     (Relay.handler Relay.api_index_1 Scenario.configured
        (Request "POST" Scenario.reading_u1))).2
  = inr (Response 500 ∅ (Some (obj1 "error" (VStr "Bad API response")))).
Proof.
  exact (proj1 (relay_missing_stress_level Relay.api_index_1 Scenario.configured
                  Scenario.no_level (Request "POST" Scenario.reading_u1)
                  (obj1 "probabilities" (VObj ∅))
                  reading_u1_validated ltac:(by left) eq_refl eq_refl)).
Defined.

(** C4: in each relay file, when a request passes validation and the call to
    the prediction service, made by the handler, is rejected (no connection,
    or a status outside 2xx), the answer is 500 with the body
    [{ error: "API call failed" }] in the first document of
    [src/api/index.js] and [{ error: "Internal - API Call Failed" }] in the
    other three, no document-store write is made, and the call to the
    prediction service is the only one. *)
Theorem relay_transport_failure (f : Relay.file) (cfg : env) (w : world)
    (req : request) (e : axios_error) :
  Obs.passes_validation req ->
  Obs.prediction_call (Obs.payload_of req)
    ∈ outbound (run w (Relay.handler f cfg req)).1 ->
  network w (Obs.prediction_call (Obs.payload_of req)) = Rejected e ->
  let r := run w (Relay.handler f cfg req) in
  r.2 = inr (Response 500 ∅
               (Some (obj1 "error"
                        (VStr match f with
                              | Relay.api_index_1 => "API call failed"
                              | _ => "Internal - API Call Failed"
                              end))))
  ∧ Obs.store_writes r.1 = []
  ∧ outbound r.1 = [Obs.prediction_call (Obs.payload_of req)].
Proof.
  intros Hv Hasked Hreply r. subst r.
  pose proof (asked_printable f cfg w req _ Hv Hasked) as Hu.
  destruct (relay_rejected f cfg w req Hv Hu e Hreply) as [Hres Hout].
  repeat split; [rewrite Hres; by destruct f| |exact Hout].
  exact (store_writes_of_prediction_only _ _ Hout).
Qed.

Lemma relay_transport_failure_witness :
  (run Scenario.api_down
     (Relay.handler Relay.index_js Scenario.configured
        (Request "POST" Scenario.reading_u1))).2
  = inr (Response 500 ∅ (Some (obj1 "error" (VStr "Internal - API Call Failed")))).
Proof.
  exact (proj1 (relay_transport_failure Relay.index_js Scenario.configured
                  Scenario.api_down (Request "POST" Scenario.reading_u1)
                  Scenario.refused reading_u1_validated ltac:(by left) eq_refl)).
Defined.

(** C5: in each relay file, when the prediction call succeeds with a truthy
    [stress_level] and the document-store write that follows is rejected, the
    rejection is caught and logged with [console.error], and the answer is
    still 200 with [{ success: true, prediction }], the prediction being the
    [stress_level] of the reply.  The write that failed is the only one, and
    it went to the file's document URL for the request's [userId]. *)
Theorem relay_write_failure_absorbed (f : Relay.file) (cfg : env) (w : world)
    (req : request) (data : value) (c : call) (e : axios_error) :
  Obs.passes_validation req ->
  network w (Obs.prediction_call (Obs.payload_of req)) = Resolved data ->
  truthy (get data "stress_level") = true ->
  c ∈ Obs.store_writes (run w (Relay.handler f cfg req)).1 ->
  network w c = Rejected e ->
  let r := run w (Relay.handler f cfg req) in
  r.2 = inr (Response 200 ∅
               (Some (VObj {[ "success" := VBool true;
                              "prediction" := get data "stress_level" ]})))
  ∧ last r.1
    = Some (Logged Error [Lit (Relay.log_write_error (Relay.texts_of f))]
              [match err_response e with
               | Some d => d
               | None => VStr (err_message e)
               end])
  ∧ Obs.store_writes r.1 = [c]
  ∧ c = Call (match f with Relay.api_index_2 => POST | _ => PATCH end)
          [ Lit "https://firestore.googleapis.com/v1/"; Lit "projects/";
            Sub (env_value (FIREBASE_PROJECT_ID cfg));
            Lit "/databases/(default)/documents/user_display/";
            Sub (get (body req) "userId");
            Lit (match f with
                 | Relay.index_js => "/latest"
                 | _ => "/readings/latest"
                 end);
            Lit "?key="; Sub (env_value (FIREBASE_API_KEY cfg)) ]
          (obj1 "fields"
             (VObj (Relay.fields_of (Obs.stored_of req data) (clock w)))).
Proof.
  intros Hv Hreply Hlevel Hin Hstore r. subst r.
  assert (Obs.logs_receipt f req = true) as Hu.
  { apply list_elem_of_filter in Hin as [_ Hin].
    exact (asked_printable f cfg w req _ Hv Hin). }
  destruct (stringifiable (get data "stress_level")) eqn:Hp.
  2:{ destruct (relay_unprintable_prediction f cfg w req Hv Hu data Hreply Hlevel Hp)
        as [_ Hout].
      rewrite (store_writes_of_prediction_only _ _ Hout) in Hin.
      by apply elem_of_nil in Hin. }
  destruct (relay_predicted f cfg w req Hv Hu data Hreply Hlevel Hp) as [Hres Hout].
  pose proof (store_writes_of_relay _ _ _ Hout (store_call_to_store _ _ _ _)) as Hw.
  rewrite Hw in Hin. apply list_elem_of_singleton in Hin as ->.
  split; [exact Hres|]. split; [|split; [done|by destruct f]].
  rewrite (relay_predicted_trace f cfg w req Hv Hu data Hreply Hlevel Hp).
  rewrite run_writeToFirestore by (done || by eapply logs_receipt_printable).
  cbv zeta. by rewrite Hstore.
Qed.

Lemma relay_write_failure_absorbed_witness :
  (run Scenario.store_down
     (Relay.handler Relay.api_index_2 Scenario.configured
        (Request "POST" Scenario.reading_u1))).2
  = inr (Response 200 ∅
           (Some (VObj {[ "success" := VBool true; "prediction" := VStr "calm" ]}))).
Proof.
  exact (proj1 (relay_write_failure_absorbed Relay.api_index_2 Scenario.configured
                  Scenario.store_down (Request "POST" Scenario.reading_u1)
                  Scenario.calm_reply
                  (Obs.store_call Relay.api_index_2 Scenario.configured (VStr "u1")
                     (Relay.fields_of
                        (Obs.stored_of (Request "POST" Scenario.reading_u1)
                           Scenario.calm_reply)
                        (clock Scenario.store_down)))
                  Scenario.forbidden
                  reading_u1_validated eq_refl eq_refl ltac:(by left) eq_refl)).
Defined.

(** C6 (as amended): a request whose method is not POST is answered 405 by
    every handler, whatever its body, even a body that could not be
    destructured, and nothing is sent out or logged; the four relay files also
    set the header [Allow] to [POST]. *)
Theorem non_post_rejected (f : Relay.file) (cfg : env) (w : world) (req : request) :
  method req ≠ "POST" ->
  run w (Relay.handler f cfg req) = ([], inr Relay.method_not_allowed)
  ∧ statusCode Relay.method_not_allowed = 405%Z
  ∧ headers Relay.method_not_allowed !! "Allow" = Some (VArr [VStr "POST"])
  ∧ run w (Upload.handler cfg req) = ([], inr Upload.method_not_allowed)
  ∧ statusCode Upload.method_not_allowed = 405%Z
  ∧ ∀ b : value,
      run w (Relay.handler f cfg (Request (method req) b))
        = run w (Relay.handler f cfg req)
      ∧ run w (Upload.handler cfg (Request (method req) b))
        = run w (Upload.handler cfg req).
Proof.
  intros Hm.
  assert (∀ b, run w (Relay.handler f cfg (Request (method req) b))
               = ([], inr Relay.method_not_allowed)) as Hrelay.
  { intros b. unfold Relay.handler. cbn [method]. by rewrite decide_False. }
  assert (∀ b, run w (Upload.handler cfg (Request (method req) b))
               = ([], inr Upload.method_not_allowed)) as Hupload.
  { intros b. unfold Upload.handler. cbn [method]. by rewrite decide_False. }
  destruct req as [m b0]. cbn [method] in *.
  split; [apply Hrelay|]. do 2 (split; [done|]).
  split; [apply Hupload|]. split; [done|].
  intros b. by rewrite !Hrelay, !Hupload.
Qed.

Lemma non_post_rejected_witness :
  run Scenario.all_well
    (Relay.handler Relay.api_index_1 Scenario.configured (Request "GET" VNull))
  = ([], inr Relay.method_not_allowed).
Proof.
  exact (proj1 (non_post_rejected Relay.api_index_1 Scenario.configured
                  Scenario.all_well (Request "GET" VNull) ltac:(discriminate))).
Defined.

(** C6, as stated, fails on the raw-upload handler: it answers a GET 405 with
    a JSON message and sets no [Allow] header. *)
Lemma upload_405_without_allow :
  run Scenario.all_well
    (Upload.handler Scenario.configured (Request "GET" Scenario.reading_u1))
  = ([], inr Upload.method_not_allowed)
  ∧ statusCode Upload.method_not_allowed = 405%Z
  ∧ headers Upload.method_not_allowed !! "Allow" = None
  ∧ headers Upload.method_not_allowed = ∅.
Proof. repeat split. Qed.

(** C7 (as amended): in the raw-upload handler, a POST request whose body is a
    value (not [null] or [undefined]) is answered 500 with
    [{ error: "Firebase credentials missing" }] when the project identifier or
    the API key is not set or is empty, and nothing is sent out. *)
Theorem upload_credentials_missing (cfg : env) (w : world) (req : request) :
  method req = "POST" ->
  nullish (body req) = false ->
  truthy (env_value (FIREBASE_PROJECT_ID cfg)) = false
  ∨ truthy (env_value (FIREBASE_API_KEY cfg)) = false ->
  run w (Upload.handler cfg req) = ([], inr Upload.credentials_missing)
  ∧ statusCode Upload.credentials_missing = 500%Z
  ∧ sent Upload.credentials_missing
    = Some (obj1 "error" (VStr "Firebase credentials missing"))
  ∧ outbound (run w (Upload.handler cfg req)).1 = [].
Proof.
  intros Hm Hb Hcred.
  assert (run w (Upload.handler cfg req) = ([], inr Upload.credentials_missing))
    as Hrun.
  { unfold Upload.handler, destructurable. rewrite decide_True by done. rewrite Hb.
    cbn [mbind prog_bind bind].
    assert (negb (truthy (env_value (FIREBASE_PROJECT_ID cfg)))
            || negb (truthy (env_value (FIREBASE_API_KEY cfg))) = true) as ->;
      [|done].
    destruct Hcred as [-> | ->]; [done|]. apply orb_true_r. }
  by rewrite Hrun.
Qed.

Lemma upload_credentials_missing_witness :
  run Scenario.all_well
    (Upload.handler Scenario.unconfigured (Request "POST" Scenario.reading_u1))
  = ([], inr Upload.credentials_missing).
Proof.
  exact (proj1 (upload_credentials_missing Scenario.unconfigured Scenario.all_well
                  (Request "POST" Scenario.reading_u1)
                  eq_refl eq_refl (or_introl eq_refl))).
Defined.

(** C7, as stated, fails on the relay handlers: without credentials they call
    the prediction service and then the document store (at
    [projects/undefined/...?key=undefined]) and answer 200.  And the
    raw-upload handler without credentials answers a GET 405, not 500. *)
Lemma relay_runs_without_credentials :
  (run Scenario.all_well
     (Relay.handler Relay.api_index_1 Scenario.unconfigured
        (Request "POST" Scenario.reading_u1))).2
  = inr (Relay.success (VStr "calm"))
  ∧ statusCode (Relay.success (VStr "calm")) = 200%Z
  ∧ outbound
      (run Scenario.all_well
         (Relay.handler Relay.api_index_1 Scenario.unconfigured
            (Request "POST" Scenario.reading_u1))).1
    = [ Obs.prediction_call (Relay.apiPayload (VNum 72) (VNum 45) (VNum 36.6));
        Call PATCH
          [ Lit "https://firestore.googleapis.com/v1/"; Lit "projects/";
            Sub VUndefined; Lit "/databases/(default)/documents/user_display/";
            Sub (VStr "u1"); Lit "/readings/latest"; Lit "?key="; Sub VUndefined ]
          (obj1 "fields"
             (VObj (Relay.fields_of
                      (Obs.stored_of (Request "POST" Scenario.reading_u1)
                         Scenario.calm_reply)
                      1700000000000))) ]
  ∧ (run Scenario.all_well
       (Upload.handler Scenario.unconfigured (Request "GET" Scenario.reading_u1))).2
    = inr Upload.method_not_allowed
  ∧ statusCode Upload.method_not_allowed = 405%Z.
Proof. repeat split. Qed.

(** C8: in each relay file, for a request that passes validation, the request
    sent to the prediction service is exactly
    [{ mode: "raw", raw: { HR: hr, HRV: hrv, BT: bt } }] with the three values
    as they are in the body, and it is the one request sent there (none is
    sent when the log line before it throws: a [userId] that has no string,
    or one whose format directive asks the body for a number it cannot give);
    a missing [hrv] or [bt] goes out as [undefined], not as a number; and the
    request sent depends on the body alone, not on the configuration, the
    clock or the answers of the services. *)
Theorem relay_request_verbatim (f : Relay.file) (cfg : env) (w : world) (req : request) :
  Obs.passes_validation req ->
  Obs.prediction_calls (run w (Relay.handler f cfg req)).1
    = (if Obs.logs_receipt f req then
         [ Call POST [Lit "https://aurasense-api.onrender.com/predict"]
             (VObj {[ "mode" := VStr "raw";
                      "raw" := VObj {[ "HR" := get (body req) "hr";
                                       "HRV" := get (body req) "hrv";
                                       "BT" := get (body req) "bt" ]} ]}) ]
       else [])
  ∧ (own_props (body req) !! "hrv" = None ->
     get (get (Obs.payload_of req) "raw") "HRV" = VUndefined)
  ∧ (own_props (body req) !! "bt" = None ->
     get (get (Obs.payload_of req) "raw") "BT" = VUndefined)
  ∧ ∀ (cfg' : env) (w' : world) (req' : request),
      Obs.passes_validation req' -> body req' = body req ->
      Obs.prediction_calls (run w' (Relay.handler f cfg' req')).1
        = Obs.prediction_calls (run w (Relay.handler f cfg req)).1.
Proof.
  intros Hv.
  assert (∀ cfg' w' req',
            Obs.passes_validation req' -> body req' = body req ->
            Obs.prediction_calls (run w' (Relay.handler f cfg' req')).1
            = if Obs.logs_receipt f req
              then [Obs.prediction_call (Obs.payload_of req)] else []) as Hcalls.
  { intros cfg' w' req' Hv' Hbody.
    assert (Obs.logs_receipt f req' = Obs.logs_receipt f req) as Hlog
      by (unfold Obs.logs_receipt; by rewrite Hbody).
    destruct (Obs.logs_receipt f req) eqn:Hu.
    - rewrite relay_prediction_calls by done.
      unfold Obs.payload_of. by rewrite Hbody.
    - rewrite run_handler_unprintable by done. reflexivity. }
  split; [exact (Hcalls cfg w req Hv eq_refl)|].
  assert (∀ hr hrv bt k,
            get (get (Relay.apiPayload hr hrv bt) "raw") k
            = get (VObj {[ "HR" := hr; "HRV" := hrv; "BT" := bt ]}) k) as Hraw.
  { intros hr hrv bt k. reflexivity. }
  split; [|split].
  - intros Hnone. unfold Obs.payload_of. rewrite Hraw, (get_absent _ _ Hnone).
    unfold get. cbn [own_props]. by simplify_map_eq.
  - intros Hnone. unfold Obs.payload_of. rewrite Hraw, (get_absent _ _ Hnone).
    unfold get. cbn [own_props]. by simplify_map_eq.
  - intros cfg' w' req' Hv' Hbody.
    by rewrite (Hcalls cfg' w' req' Hv' Hbody), (Hcalls cfg w req Hv eq_refl).
Qed.

Lemma relay_request_verbatim_witness :
  Obs.prediction_calls
    (run Scenario.api_down
       (Relay.handler Relay.part_000 Scenario.unconfigured
          (Request "POST" Scenario.reading_u1))).1
  = [ Call POST [Lit "https://aurasense-api.onrender.com/predict"]
        (VObj {[ "mode" := VStr "raw";
                 "raw" := VObj {[ "HR" := VNum 72; "HRV" := VNum 45;
                                  "BT" := VNum 36.6 ]} ]}) ].
Proof.
  exact (proj1 (relay_request_verbatim Relay.part_000 Scenario.unconfigured
                  Scenario.api_down (Request "POST" Scenario.reading_u1)
                  reading_u1_validated)).
Defined.

(** C9: in each relay file, when a request passes validation and the
    prediction service, asked by the handler, answers 2xx with a body whose
    [stress_level] is there but falsy (the empty string, say), the answer is
    the 500 of a bad response ([{ error: "Bad API response" }] in the first
    document of [src/api/index.js], [{ error: "Internal - Bad API Response" }]
    in the other three) and no document-store write is made: the same answer,
    and the same absence of a write, as for any reply that has no
    [stress_level]. *)
Theorem relay_falsy_stress_level (f : Relay.file) (cfg : env) (w : world)
    (req : request) (data level : value) :
  Obs.passes_validation req ->
  Obs.prediction_call (Obs.payload_of req)
    ∈ outbound (run w (Relay.handler f cfg req)).1 ->
  network w (Obs.prediction_call (Obs.payload_of req)) = Resolved data ->
  own_props data !! "stress_level" = Some level ->
  truthy level = false ->
  let r := run w (Relay.handler f cfg req) in
  r.2 = inr (Response 500 ∅
               (Some (obj1 "error"
                        (VStr match f with
                              | Relay.api_index_1 => "Bad API response"
                              | _ => "Internal - Bad API Response"
                              end))))
  ∧ Obs.store_writes r.1 = []
  ∧ ∀ (w' : world) (data' : value),
      network w' (Obs.prediction_call (Obs.payload_of req)) = Resolved data' ->
      own_props data' !! "stress_level" = None ->
      (run w' (Relay.handler f cfg req)).2 = r.2
      ∧ Obs.store_writes (run w' (Relay.handler f cfg req)).1 = Obs.store_writes r.1.
Proof.
  intros Hv Hasked Hreply Hsome Hfalsy r. subst r.
  pose proof (asked_printable f cfg w req _ Hv Hasked) as Hu.
  rewrite (relay_bad_response f cfg w req Hv Hu data Hreply);
    [|by rewrite (get_present _ _ _ Hsome)].
  split; [by destruct f|]. split; [reflexivity|].
  intros w' data' Hreply' Hnone.
  rewrite (relay_bad_response f cfg w' req Hv Hu data' Hreply');
    [|by rewrite (get_absent _ _ Hnone)].
  by split.
Qed.

Lemma relay_falsy_stress_level_witness :
  (run Scenario.empty_level
     (Relay.handler Relay.index_js Scenario.configured
        (Request "POST" Scenario.reading_u1))).2
  = inr (Response 500 ∅ (Some (obj1 "error" (VStr "Internal - Bad API Response")))).
Proof.
  exact (proj1 (relay_falsy_stress_level Relay.index_js Scenario.configured
                  Scenario.empty_level (Request "POST" Scenario.reading_u1)
                  (obj1 "stress_level" (VStr "")) (VStr "")
                  reading_u1_validated ltac:(by left) eq_refl eq_refl eq_refl)).
Defined.

(** C10: in the raw-upload handler, a request that reaches the document-store
    write causes that one call and no other: a POST to
    [user_display/{userId}/readings/latest] of the configured project.  When
    the write is rejected the answer is 500 with
    [{ error: "Failed to upload data" }]; when it succeeds the answer is 200
    with [{ success: true, message: "Data uploaded" }]; the prediction service
    is never called. *)
Theorem upload_write_outcome (cfg : env) (w : world) (req : request) (c : call) :
  c ∈ outbound (run w (Upload.handler cfg req)).1 ->
  let r := run w (Upload.handler cfg req) in
  outbound r.1 = [c]
  ∧ c = Call POST
          [ Lit "https://firestore.googleapis.com/v1/"; Lit "projects/";
            Sub (env_value (FIREBASE_PROJECT_ID cfg));
            Lit "/databases/(default)/documents/user_display/";
            Sub (Obs.upload_user req); Lit "/readings/latest";
            Lit "?key="; Sub (env_value (FIREBASE_API_KEY cfg)) ]
          (obj1 "fields" (VObj (Obs.upload_fields req (clock w))))
  ∧ Obs.to_document_store c = true
  ∧ Obs.prediction_calls r.1 = []
  ∧ r.2 = inr (match network w c with
               | Resolved _ =>
                   Response 200 ∅
                     (Some (VObj {[ "success" := VBool true;
                                    "message" := VStr "Data uploaded" ]}))
               | Rejected _ =>
                   Response 500 ∅
                     (Some (obj1 "error" (VStr "Failed to upload data")))
               end).
Proof.
  intros Hin r. subst r.
  destruct (upload_called cfg w req c Hin) as [Hr Hu].
  rewrite (run_upload cfg w req Hr Hu) in Hin |- *. cbv zeta in *.
  set (c' := Obs.upload_call cfg (Obs.upload_user req)
               (Obs.upload_fields req (clock w))) in *.
  assert (c = c') as ->.
  { destruct (network w c'); cbn [fst] in Hin;
      autorewrite with obs in Hin; by apply list_elem_of_singleton in Hin. }
  destruct (network w c') as [d|e]; cbn [fst snd]; repeat split.
Qed.

Lemma upload_write_outcome_witness :
  (run Scenario.store_down
     (Upload.handler Scenario.configured (Request "POST" Scenario.reading_u1))).2
  = inr (Response 500 ∅ (Some (obj1 "error" (VStr "Failed to upload data")))).
Proof.
  exact (proj2 (proj2 (proj2 (proj2
           (upload_write_outcome Scenario.configured Scenario.store_down
              (Request "POST" Scenario.reading_u1)
              (Obs.upload_call Scenario.configured (VStr "u1")
                 (Obs.upload_fields (Request "POST" Scenario.reading_u1)
                    (clock Scenario.store_down)))
              ltac:(by left)))))).
Defined.

End claims.

(** ** Beyond the claims: properties of the handlers *)

Section extras.
Import JS Eff.

(** A relay handler writes to the store only at the end of its last course. *)
Lemma relay_store_write f cfg w req (c : call) :
  c ∈ Obs.store_writes (run w (Relay.handler f cfg req)).1 ->
  ∃ data : value,
    Obs.passes_validation req
    ∧ network w (Obs.prediction_call (Obs.payload_of req)) = Resolved data
    ∧ truthy (get data "stress_level") = true
    ∧ (run w (Relay.handler f cfg req)).2
      = inr (Relay.success (get data "stress_level"))
    ∧ c = Obs.store_call f cfg (get (body req) "userId")
            (Relay.fields_of (Obs.stored_of req data) (clock w)).
Proof.
  intros Hin.
  destruct (relay_courses f cfg w req)
    as [[_ Hr]|[(_ & _ & msg & Hr)|[(_ & _ & _ & Hr)|[(_ & _ & msg & Hr)
       |[(_ & _ & e & _ & _ & Hout)|[(_ & _ & d & _ & _ & _ & Hout)
       |[(_ & _ & d & _ & _ & _ & _ & Hout)
       |(Hv & _ & d & Hreply & Hlevel & _ & Hres & Hout)]]]]]]].
  1-4: rewrite Hr in Hin; by apply elem_of_nil in Hin.
  1-3: rewrite (store_writes_of_prediction_only _ _ Hout) in Hin;
       by apply elem_of_nil in Hin.
  rewrite (store_writes_of_relay _ _ _ Hout (store_call_to_store _ _ _ _)) in Hin.
  apply list_elem_of_singleton in Hin as ->. by exists d.
Qed.

(** X1: [writeToFirestore] throws only before its [try], when [userId] has
    no string or [data] is [null] or [undefined], and then nothing has been
    sent or logged.  Otherwise it never throws, whatever the store does: it
    makes exactly one call, to the document URL of the file for that user,
    with [axios.patch] ([axios.post] in the second document of
    [src/api/index.js]), then logs exactly one line, with [console.log] when
    the call resolved and with [console.error] when it was rejected. *)
Theorem writeToFirestore_completes (f : Relay.file) (cfg : env)
    (userId data : value) (w : world) :
  let r := run w (Relay.writeToFirestore f cfg userId data) in
  let c :=
    Call (match f with Relay.api_index_2 => POST | _ => PATCH end)
      [ Lit "https://firestore.googleapis.com/v1/"; Lit "projects/";
        Sub (env_value (FIREBASE_PROJECT_ID cfg));
        Lit "/databases/(default)/documents/user_display/"; Sub userId;
        Lit (match f with Relay.index_js => "/latest" | _ => "/readings/latest" end);
        Lit "?key="; Sub (env_value (FIREBASE_API_KEY cfg)) ]
      (obj1 "fields" (VObj (Relay.fields_of data (clock w)))) in
  if stringifiable userId && negb (nullish data) then
    r.2 = inr tt
    ∧ Obs.to_document_store c = true
    ∧ ∃ (l : level) (msg : template) (args : list value),
        r.1 = [Called c; Logged l msg args]
        ∧ l = match network w c with Resolved _ => Log | Rejected _ => Error end
  else
    ∃ msg : string, r = ([], inl (TypeError msg)).
Proof.
  intros r c. subst r.
  destruct (stringifiable userId && negb (nullish data)) eqn:H.
  - apply andb_prop in H as [Hu Hd]. apply negb_true_iff in Hd.
    rewrite run_writeToFirestore by done. cbv zeta.
    assert (Obs.store_call f cfg userId (Relay.fields_of data (clock w)) = c) as ->
      by (by destruct f).
    cbn [fst snd]. do 2 (split; [reflexivity|]).
    destruct (network w c) as [d|e]; by eexists _, _, _.
  - by apply run_writeToFirestore_throws.
Qed.

(** X2: given a [userId] with a string and a [data] that is not [null] or
    [undefined], the one call [writeToFirestore] makes carries
    [{ fields }] where the keys of [fields] are [stress_level], [hr] and
    [timestamp], and [probabilities] exactly when [data.probabilities] is
    truthy; [stress_level] and [hr] wrap the given values as they are, and
    [timestamp] is the clock's reading at the call, in ISO-8601. *)
Theorem writeToFirestore_document (f : Relay.file) (cfg : env)
    (userId data : value) (w : world) :
  stringifiable userId = true ->
  nullish data = false ->
  ∃ (c : call) (fields : gmap string value) (ts : string),
    outbound (run w (Relay.writeToFirestore f cfg userId data)).1 = [c]
    ∧ call_data c = VObj {[ "fields" := VObj fields ]}
    ∧ dom fields
      =@{gset string} {[ "stress_level"; "hr"; "timestamp" ]}
         ∪ (if truthy (get data "probabilities") then {[ "probabilities" ]} else ∅)
    ∧ fields !! "stress_level"
      = Some (VObj {[ "stringValue" := get data "stress_level" ]})
    ∧ fields !! "hr" = Some (VObj {[ "doubleValue" := get data "hr" ]})
    ∧ fields !! "timestamp" = Some (VObj {[ "timestampValue" := VStr ts ]})
    ∧ ts = Date.toISOString (clock w)
    ∧ Date.is_iso8601 ts = true.
Proof.
  intros Hu Hd.
  exists (Obs.store_call f cfg userId (Relay.fields_of data (clock w))),
    (Relay.fields_of data (clock w)), (Date.toISOString (clock w)).
  rewrite run_writeToFirestore by done. cbv zeta. cbn [fst].
  split; [by destruct (network w _)|]. split; [reflexivity|].
  rewrite fields_of_stress_level, fields_of_hr, fields_of_timestamp, toISOString_iso.
  split; [|done].
  unfold Relay.fields_of. destruct (truthy (get data "probabilities"));
    rewrite ?dom_insert_L, dom_singleton_L; set_solver.
Qed.

Lemma writeToFirestore_document_witness :
  ∃ (c : call) (fields : gmap string value) (ts : string),
    outbound
      (run Scenario.all_well
         (Relay.writeToFirestore Relay.index_js Scenario.configured (VStr "u1")
            (obj1 "hr" (VNum 72)))).1 = [c]
    ∧ call_data c = VObj {[ "fields" := VObj fields ]}
    ∧ dom fields
      =@{gset string} {[ "stress_level"; "hr"; "timestamp" ]}
         ∪ (if truthy (get (obj1 "hr" (VNum 72)) "probabilities")
            then {[ "probabilities" ]} else ∅)
    ∧ fields !! "stress_level"
      = Some (VObj {[ "stringValue" := get (obj1 "hr" (VNum 72)) "stress_level" ]})
    ∧ fields !! "hr"
      = Some (VObj {[ "doubleValue" := get (obj1 "hr" (VNum 72)) "hr" ]})
    ∧ fields !! "timestamp" = Some (VObj {[ "timestampValue" := VStr ts ]})
    ∧ ts = Date.toISOString (clock Scenario.all_well)
    ∧ Date.is_iso8601 ts = true.
Proof.
  exact (writeToFirestore_document Relay.index_js Scenario.configured (VStr "u1")
           (obj1 "hr" (VNum 72)) Scenario.all_well eq_refl eq_refl).
Defined.

(** X3: given a [userId] with a string and a [data] that is not [null] or
    [undefined]: when [data.probabilities] is truthy, the [probabilities]
    field of the document sent is a mapValue with one entry per own property
    of [data.probabilities] (per index, for an array or a string), each
    wrapping the property's value as a doubleValue without converting it; a
    property named [__proto__] is the one exception and is left out.  When
    [data.probabilities] is falsy the field is absent. *)
Theorem writeToFirestore_probabilities (f : Relay.file) (cfg : env)
    (userId data : value) (w : world) :
  stringifiable userId = true ->
  nullish data = false ->
  ∃ (c : call) (fields : gmap string value),
    outbound (run w (Relay.writeToFirestore f cfg userId data)).1 = [c]
    ∧ call_data c = VObj {[ "fields" := VObj fields ]}
    ∧ if truthy (get data "probabilities") then
        ∃ m : gmap string value,
          fields !! "probabilities"
            = Some (VObj {[ "mapValue" := VObj {[ "fields" := VObj m ]} ]})
          ∧ ∀ k : string,
              m !! k = if decide (k = "__proto__") then None
                       else (fun v => VObj {[ "doubleValue" := v ]})
                              <$> own_props (get data "probabilities") !! k
      else fields !! "probabilities" = None.
Proof.
  intros Hu Hd.
  exists (Obs.store_call f cfg userId (Relay.fields_of data (clock w))),
    (Relay.fields_of data (clock w)).
  rewrite run_writeToFirestore by done. cbv zeta. cbn [fst].
  split; [by destruct (network w _)|]. split; [reflexivity|].
  rewrite fields_of_probabilities.
  destruct (truthy (get data "probabilities")); [|done].
  eexists. split; [reflexivity|]. apply probFields_lookup.
Qed.

Lemma writeToFirestore_probabilities_witness :
  ∃ (c : call) (fields : gmap string value),
    outbound
      (run Scenario.all_well
         (Relay.writeToFirestore Relay.part_000 Scenario.configured (VStr "u1")
            Scenario.calm_reply)).1 = [c]
    ∧ call_data c = VObj {[ "fields" := VObj fields ]}
    ∧ if truthy (get Scenario.calm_reply "probabilities") then
        ∃ m : gmap string value,
          fields !! "probabilities"
            = Some (VObj {[ "mapValue" := VObj {[ "fields" := VObj m ]} ]})
          ∧ ∀ k : string,
              m !! k = if decide (k = "__proto__") then None
                       else (fun v => VObj {[ "doubleValue" := v ]})
                              <$> own_props (get Scenario.calm_reply "probabilities") !! k
      else fields !! "probabilities" = None.
Proof.
  exact (writeToFirestore_probabilities Relay.part_000 Scenario.configured
           (VStr "u1") Scenario.calm_reply Scenario.all_well eq_refl eq_refl).
Defined.


(** X4: what a relay handler answers depends on the request and on how the
    prediction call settles, and on nothing else: not on the configuration,
    the clock or the outcome of the store write.  The four files give the
    same status, and the same answer altogether unless it is a 500; a 500 is
    in every file the status 500, no header, and a body [{ error: text }],
    and only the text differs. *)
Theorem relay_answer_by_prediction (f f' : Relay.file) (cfg cfg' : env)
    (w w' : world) (req : request) :
  network w (Obs.prediction_call (Obs.payload_of req))
    = network w' (Obs.prediction_call (Obs.payload_of req)) ->
  let r := run w (Relay.handler f cfg req) in
  let r' := run w' (Relay.handler f' cfg' req) in
  Obs.status_of r.2 = Obs.status_of r'.2
  ∧ (f = f' ∨ Obs.status_of r.2 ≠ Some 500%Z -> r.2 = r'.2)
  ∧ (Obs.status_of r.2 = Some 500%Z ->
     ∃ text text' : string,
       r.2 = inr (Response 500 ∅ (Some (VObj {[ "error" := VStr text ]})))
       ∧ r'.2 = inr (Response 500 ∅ (Some (VObj {[ "error" := VStr text' ]})))).
Proof.
  intros Hsame r r'. subst r r'.
  destruct (decide (method req = "POST")) as [Hm|Hm];
    [|by rewrite !run_handler_not_post].
  destruct (nullish (body req)) eqn:Hb; [by rewrite !run_handler_no_body|].
  destruct (truthy (get (body req) "hr") && truthy (get (body req) "userId")) eqn:Ht;
    [|by rewrite !run_handler_missing].
  apply andb_prop in Ht as [Hhr Hid].
  assert (Obs.passes_validation req) as Hv by done.
  pose proof (logs_receipt_any f' f req) as Hu'.
  destruct (Obs.logs_receipt f req) eqn:Hu;
    [|by rewrite !run_handler_unprintable].
  rewrite (run_handler_validated f cfg w req Hv Hu),
    (run_handler_validated f' cfg' w' req Hv Hu').
  cbv zeta. rewrite Hsame.
  assert (∀ a b : string,
            Obs.status_of (inr (Relay.failure a)) = Obs.status_of (inr (Relay.failure b))
            ∧ (f = f' ∨ Obs.status_of (inr (Relay.failure a)) ≠ Some 500%Z ->
               a = b -> @inr exn _ (Relay.failure a) = inr (Relay.failure b))
            ∧ (Obs.status_of (inr (Relay.failure a)) = Some 500%Z ->
               ∃ text text' : string,
                 @inr exn _ (Relay.failure a)
                   = inr (Response 500 ∅ (Some (VObj {[ "error" := VStr text ]})))
                 ∧ @inr exn _ (Relay.failure b)
                   = inr (Response 500 ∅ (Some (VObj {[ "error" := VStr text' ]})))))
    as Hfail.
  { intros a b. split; [done|]. split; [by intros _ ->|]. intros _. by exists a, b. }
  destruct (network w' _) as [data|e]; cbn [fst snd].
  - destruct (truthy (js_and data (get data "stress_level"))); cbn [fst snd].
    + destruct (stringifiable (get data "stress_level")); cbn [fst snd].
      * done.
      * destruct (Hfail (Relay.err_call_failed (Relay.texts_of f))
                    (Relay.err_call_failed (Relay.texts_of f'))) as (H1 & H2 & H3).
        split; [done|]. split; [|done].
        intros [->|Hne]; [done|]. by destruct Hne.
    + destruct (Hfail (Relay.err_bad_response (Relay.texts_of f))
                  (Relay.err_bad_response (Relay.texts_of f'))) as (H1 & H2 & H3).
      split; [done|]. split; [|done].
      intros [->|Hne]; [done|]. by destruct Hne.
  - destruct (Hfail (Relay.err_call_failed (Relay.texts_of f))
                (Relay.err_call_failed (Relay.texts_of f'))) as (H1 & H2 & H3).
    split; [done|]. split; [|done].
    intros [->|Hne]; [done|]. by destruct Hne.
Qed.

Lemma relay_answer_by_prediction_witness :
  Obs.status_of
    (run Scenario.all_well
       (Relay.handler Relay.api_index_1 Scenario.configured
          (Request "POST" Scenario.reading_u1))).2
  = Obs.status_of
      (run Scenario.store_down
         (Relay.handler Relay.index_js Scenario.unconfigured
            (Request "POST" Scenario.reading_u1))).2.
Proof.
  exact (proj1 (relay_answer_by_prediction Relay.api_index_1 Relay.index_js
                  Scenario.configured Scenario.unconfigured
                  Scenario.all_well Scenario.store_down
                  (Request "POST" Scenario.reading_u1) eq_refl)).
Defined.

(** X5: a relay handler lets an exception escape in two cases only, both
    before its [try]: a POST whose body is [null] or [undefined], and a POST
    that passes the presence check and whose first log line throws (a
    [userId] that has no string, or one whose format directive asks the body
    for a number it cannot give).  Then nothing has been sent or logged.  In
    every other case it answers, and the answer is the 405 with [Allow], the
    400 of missing fields, a 200 [{ success: true, prediction }] or a 500
    [{ error }]. *)
Theorem relay_always_answers (f : Relay.file) (cfg : env) (w : world) (req : request) :
  let r := run w (Relay.handler f cfg req) in
  if bool_decide (method req = "POST")
     && (nullish (body req)
         || truthy (get (body req) "hr") && truthy (get (body req) "userId")
            && negb (Obs.logs_receipt f req))
  then ∃ msg : string, r = ([], inl (TypeError msg))
  else
    ∃ res : response,
      r.2 = inr res
      ∧ (res = Response 405 {[ "Allow" := VArr [VStr "POST"] ]}
                 (Some (VStr "Method Not Allowed"))
         ∨ res = Response 400 ∅
                   (Some (VObj {[ "error" := VStr "Missing required fields: hr, userId" ]}))
         ∨ (∃ prediction : value,
              res = Response 200 ∅
                      (Some (VObj {[ "success" := VBool true;
                                     "prediction" := prediction ]})))
         ∨ (∃ text : string,
              res = Response 500 ∅ (Some (VObj {[ "error" := VStr text ]})))).
Proof.
  intros r. subst r.
  destruct (relay_courses f cfg w req)
    as [[Hm Hr]|[(Hm & Hb & msg & Hr)|[(Hm & Hb & Ht & Hr)|[(Hv & Hu & msg & Hr)
       |[(Hv & Hu & e & _ & Hr & _)|[(Hv & Hu & d & _ & _ & Hr & _)
       |[(Hv & Hu & d & _ & _ & _ & Hr & _)
       |(Hv & Hu & d & _ & _ & _ & Hr & _)]]]]]]].
  - rewrite bool_decide_eq_false_2 by done. cbn [andb]. rewrite Hr.
    eexists. split; [done|]. by left.
  - rewrite bool_decide_eq_true_2 by done. rewrite Hb. cbn [andb orb]. by exists msg.
  - rewrite Hb, Ht. cbn [andb orb]. rewrite andb_false_r. rewrite Hr.
    eexists. split; [done|]. right. by left.
  - destruct Hv as (Hm & Hb & Hhr & Hid).
    rewrite bool_decide_eq_true_2 by done. rewrite Hb, Hhr, Hid, Hu.
    cbn [andb orb negb]. by exists msg.
  - destruct Hv as (Hm & Hb & Hhr & Hid). rewrite Hb, Hhr, Hid, Hu.
    cbn [andb orb negb]. rewrite andb_false_r. rewrite Hr.
    eexists. split; [done|]. do 3 right. by eexists.
  - destruct Hv as (Hm & Hb & Hhr & Hid). rewrite Hb, Hhr, Hid, Hu.
    cbn [andb orb negb]. rewrite andb_false_r. rewrite Hr.
    eexists. split; [done|]. do 3 right. by eexists.
  - destruct Hv as (Hm & Hb & Hhr & Hid). rewrite Hb, Hhr, Hid, Hu.
    cbn [andb orb negb]. rewrite andb_false_r. rewrite Hr.
    eexists. split; [done|]. do 3 right. by eexists.
  - destruct Hv as (Hm & Hb & Hhr & Hid). rewrite Hb, Hhr, Hid, Hu.
    cbn [andb orb negb]. rewrite andb_false_r. rewrite Hr.
    eexists. split; [done|]. do 2 right. left. by eexists.
Qed.

(** X6: a POST whose body is [null] or [undefined] makes every handler, relay
    or raw-upload, throw a TypeError at the destructuring: the handler sends
    no answer of its own, and nothing has been sent out or logged. *)
Theorem post_without_body_throws (f : Relay.file) (cfg : env) (w : world)
    (req : request) :
  method req = "POST" ->
  nullish (body req) = true ->
  ∃ msg : string,
    run w (Relay.handler f cfg req) = ([], inl (TypeError msg))
    ∧ run w (Upload.handler cfg req) = ([], inl (TypeError msg)).
Proof.
  intros Hm Hb. eexists.
  by rewrite run_handler_no_body, run_upload_no_body.
Qed.

Lemma post_without_body_throws_witness :
  ∃ msg : string,
    run Scenario.all_well
      (Relay.handler Relay.api_index_2 Scenario.configured (Request "POST" VUndefined))
      = ([], inl (TypeError msg))
    ∧ run Scenario.all_well
        (Upload.handler Scenario.configured (Request "POST" VUndefined))
      = ([], inl (TypeError msg)).
Proof.
  exact (post_without_body_throws Relay.api_index_2 Scenario.configured
           Scenario.all_well (Request "POST" VUndefined) eq_refl eq_refl).
Defined.

(** X7: a relay handler writes to the document store exactly when it answers
    200.  With a 200 it has made two calls, first to the prediction service
    and then to the store; with any other answer, or none, it has made no
    store write, and at most the one call to the prediction service. *)
Theorem relay_writes_iff_200 (f : Relay.file) (cfg : env) (w : world) (req : request) :
  let r := run w (Relay.handler f cfg req) in
  let pc := Obs.prediction_call (Obs.payload_of req) in
  if decide (Obs.status_of r.2 = Some 200%Z) then
    ∃ sc : call,
      outbound r.1 = [pc; sc]
      ∧ Obs.to_document_store sc = true
      ∧ Obs.store_writes r.1 = [sc]
  else
    Obs.store_writes r.1 = []
    ∧ (outbound r.1 = [] ∨ outbound r.1 = [pc]).
Proof.
  intros r pc. subst r.
  destruct (relay_courses f cfg w req)
    as [[_ Hr]|[(_ & _ & msg & Hr)|[(_ & _ & _ & Hr)|[(_ & _ & msg & Hr)
       |[(_ & _ & e & _ & Hr & Hout)|[(_ & _ & d & _ & _ & Hr & Hout)
       |[(_ & _ & d & _ & _ & _ & Hr & Hout)
       |(_ & _ & d & _ & _ & _ & Hr & Hout)]]]]]]].
  1-4: rewrite Hr; rewrite decide_False by done; split; [done|by left].
  1-3: rewrite Hr; rewrite decide_False by done;
       split; [exact (store_writes_of_prediction_only _ _ Hout)|by right].
  rewrite Hr. rewrite decide_True by done. eexists.
  split; [exact Hout|]. split; [reflexivity|].
  exact (store_writes_of_relay _ _ _ Hout (store_call_to_store _ _ _ _)).
Qed.

(** X8: whenever a relay handler writes to the document store, the request
    had passed validation and the prediction service had replied with a
    truthy [stress_level]; the answer is 200 [{ success: true, prediction }]
    with that [stress_level] as the prediction; the write goes, with
    [axios.patch] (with [axios.post] in the second document of
    [src/api/index.js]), to
    [projects/{project}/databases/(default)/documents/user_display/{userId}/readings/latest]
    ([.../{userId}/latest] in [src/index.js]) with the request's [userId] and
    the configured key; and the document holds that same [stress_level] as a
    stringValue, the request's [hr] as it came as a doubleValue, and a
    [probabilities] field exactly when the reply's [probabilities] is truthy. *)
Theorem relay_answer_matches_document (f : Relay.file) (cfg : env) (w : world)
    (req : request) (c : call) :
  c ∈ Obs.store_writes (run w (Relay.handler f cfg req)).1 ->
  let r := run w (Relay.handler f cfg req) in
  ∃ (data : value) (fields : gmap string value),
    network w (Obs.prediction_call (Obs.payload_of req)) = Resolved data
    ∧ truthy (get data "stress_level") = true
    ∧ r.2 = inr (Response 200 ∅
                   (Some (VObj {[ "success" := VBool true;
                                  "prediction" := get data "stress_level" ]})))
    ∧ c = Call (match f with Relay.api_index_2 => POST | _ => PATCH end)
            [ Lit "https://firestore.googleapis.com/v1/"; Lit "projects/";
              Sub (env_value (FIREBASE_PROJECT_ID cfg));
              Lit "/databases/(default)/documents/user_display/";
              Sub (get (body req) "userId");
              Lit (match f with
                   | Relay.index_js => "/latest"
                   | _ => "/readings/latest"
                   end);
              Lit "?key="; Sub (env_value (FIREBASE_API_KEY cfg)) ]
            (VObj {[ "fields" := VObj fields ]})
    ∧ fields !! "stress_level"
      = Some (VObj {[ "stringValue" := get data "stress_level" ]})
    ∧ fields !! "hr" = Some (VObj {[ "doubleValue" := get (body req) "hr" ]})
    ∧ (is_Some (fields !! "probabilities") ↔ truthy (get data "probabilities") = true).
Proof.
  intros Hin r. subst r.
  destruct (relay_store_write f cfg w req c Hin)
    as (data & Hv & Hreply & Hlevel & Hres & ->).
  exists data, (Relay.fields_of (Obs.stored_of req data) (clock w)).
  do 2 (split; [done|]). split; [exact Hres|].
  split; [by destruct f|].
  rewrite fields_of_stress_level, fields_of_hr, fields_of_probabilities.
  rewrite stored_of_stress_level, stored_of_hr, stored_of_probabilities,
    truthy_js_or_null.
  do 2 (split; [done|]).
  destruct (truthy (get data "probabilities")); split; try done.
Qed.

Lemma relay_answer_matches_document_witness :
  ∃ (data : value) (fields : gmap string value),
    network Scenario.all_well
      (Obs.prediction_call (Obs.payload_of (Request "POST" Scenario.reading_u1)))
      = Resolved data
    ∧ truthy (get data "stress_level") = true
    ∧ (run Scenario.all_well
         (Relay.handler Relay.index_js Scenario.configured
            (Request "POST" Scenario.reading_u1))).2
      = inr (Response 200 ∅
               (Some (VObj {[ "success" := VBool true;
                              "prediction" := get data "stress_level" ]})))
    ∧ Obs.store_call Relay.index_js Scenario.configured (VStr "u1")
        (Relay.fields_of
           (Obs.stored_of (Request "POST" Scenario.reading_u1) Scenario.calm_reply)
           (clock Scenario.all_well))
      = Call PATCH
          [ Lit "https://firestore.googleapis.com/v1/"; Lit "projects/";
            Sub (VStr "aurasense");
            Lit "/databases/(default)/documents/user_display/";
            Sub (VStr "u1"); Lit "/latest";
            Lit "?key="; Sub (VStr "AIza-key") ]
          (VObj {[ "fields" := VObj fields ]})
    ∧ fields !! "stress_level"
      = Some (VObj {[ "stringValue" := get data "stress_level" ]})
    ∧ fields !! "hr" = Some (VObj {[ "doubleValue" := VNum 72 ]})
    ∧ (is_Some (fields !! "probabilities") ↔ truthy (get data "probabilities") = true).
Proof.
  exact (relay_answer_matches_document Relay.index_js Scenario.configured
           Scenario.all_well (Request "POST" Scenario.reading_u1)
           (Obs.store_call Relay.index_js Scenario.configured (VStr "u1")
              (Relay.fields_of
                 (Obs.stored_of (Request "POST" Scenario.reading_u1)
                    Scenario.calm_reply)
                 (clock Scenario.all_well)))
           ltac:(by left)).
Defined.


(** X9: whenever the raw-upload handler writes, it is one [axios.post] to
    [projects/{project}/databases/(default)/documents/user_display/{user}/readings/latest]
    with the configured project and key, where the user is "user1" exactly
    when the body has no [userId] (or has it [undefined]); any other [userId],
    also [null], the empty string or 0, is used as it is. *)
Theorem upload_default_user (cfg : env) (w : world) (req : request) (c : call) :
  c ∈ outbound (run w (Upload.handler cfg req)).1 ->
  call_verb c = POST
  ∧ call_url c
    = [ Lit "https://firestore.googleapis.com/v1/"; Lit "projects/";
        Sub (env_value (FIREBASE_PROJECT_ID cfg));
        Lit "/databases/(default)/documents/user_display/";
        Sub match own_props (body req) !! "userId" with
            | None | Some VUndefined => VStr "user1"
            | Some v => v
            end;
        Lit "/readings/latest";
        Lit "?key="; Sub (env_value (FIREBASE_API_KEY cfg)) ].
Proof.
  intros Hin.
  destruct (upload_called cfg w req c Hin) as [Hr Hu].
  rewrite (run_upload cfg w req Hr Hu) in Hin. cbv zeta in Hin.
  assert (c = Obs.upload_call cfg (Obs.upload_user req)
                (Obs.upload_fields req (clock w))) as ->.
  { destruct (network w _); cbn [fst] in Hin;
      autorewrite with obs in Hin; by apply list_elem_of_singleton in Hin. }
  split; [reflexivity|].
  assert (Obs.upload_user req
          = match own_props (body req) !! "userId" with
            | None | Some VUndefined => VStr "user1"
            | Some v => v
            end) as <-; [|reflexivity].
  unfold Obs.upload_user, get.
  by destruct (own_props (body req) !! "userId") as [[]|].
Qed.

Lemma upload_default_user_witness :
  call_verb
    (Obs.upload_call Scenario.configured VNull
       (Obs.upload_fields (Request "POST" (obj1 "userId" VNull))
          (clock Scenario.all_well))) = POST
  ∧ call_url
      (Obs.upload_call Scenario.configured VNull
         (Obs.upload_fields (Request "POST" (obj1 "userId" VNull))
            (clock Scenario.all_well)))
    = [ Lit "https://firestore.googleapis.com/v1/"; Lit "projects/";
        Sub (VStr "aurasense");
        Lit "/databases/(default)/documents/user_display/";
        Sub VNull; Lit "/readings/latest"; Lit "?key="; Sub (VStr "AIza-key") ].
Proof.
  exact (upload_default_user Scenario.configured Scenario.all_well
           (Request "POST" (obj1 "userId" VNull))
           (Obs.upload_call Scenario.configured VNull
              (Obs.upload_fields (Request "POST" (obj1 "userId" VNull))
                 (clock Scenario.all_well)))
           ltac:(by left)).
Defined.

(** X10: whenever the raw-upload handler writes, the body of the call is
    [{ fields }] where [fields] has exactly the keys [hr], [spo2], [hrv] and
    [timestamp]; the three readings are wrapped as doubleValues as they are
    in the request body, [undefined] when missing, and none of them is
    required; the timestamp is the clock's reading in ISO-8601.  Nothing else
    of the request body ([bt], say) reaches the store. *)
Theorem upload_document (cfg : env) (w : world) (req : request) (c : call) :
  c ∈ outbound (run w (Upload.handler cfg req)).1 ->
  ∃ (fields : gmap string value) (ts : string),
    call_data c = VObj {[ "fields" := VObj fields ]}
    ∧ dom fields =@{gset string} {[ "hr"; "spo2"; "hrv"; "timestamp" ]}
    ∧ fields !! "hr" = Some (VObj {[ "doubleValue" := get (body req) "hr" ]})
    ∧ fields !! "spo2" = Some (VObj {[ "doubleValue" := get (body req) "spo2" ]})
    ∧ fields !! "hrv" = Some (VObj {[ "doubleValue" := get (body req) "hrv" ]})
    ∧ fields !! "timestamp" = Some (VObj {[ "timestampValue" := VStr ts ]})
    ∧ ts = Date.toISOString (clock w)
    ∧ Date.is_iso8601 ts = true.
Proof.
  intros Hin.
  destruct (upload_called cfg w req c Hin) as [Hr Hu].
  rewrite (run_upload cfg w req Hr Hu) in Hin. cbv zeta in Hin.
  assert (c = Obs.upload_call cfg (Obs.upload_user req)
                (Obs.upload_fields req (clock w))) as ->.
  { destruct (network w _); cbn [fst] in Hin;
      autorewrite with obs in Hin; by apply list_elem_of_singleton in Hin. }
  exists (Obs.upload_fields req (clock w)), (Date.toISOString (clock w)).
  split; [reflexivity|].
  rewrite toISOString_iso. unfold Obs.upload_fields, Upload.fields_of, obj1.
  split; [rewrite !dom_insert_L, dom_singleton_L; set_solver|].
  repeat split; by simplify_map_eq.
Qed.

Lemma upload_document_witness :
  ∃ (fields : gmap string value) (ts : string),
    call_data
      (Obs.upload_call Scenario.configured (VStr "u1")
         (Obs.upload_fields (Request "POST" Scenario.reading_u1)
            (clock Scenario.all_well)))
    = VObj {[ "fields" := VObj fields ]}
    ∧ dom fields =@{gset string} {[ "hr"; "spo2"; "hrv"; "timestamp" ]}
    ∧ fields !! "hr" = Some (VObj {[ "doubleValue" := VNum 72 ]})
    ∧ fields !! "spo2" = Some (VObj {[ "doubleValue" := VUndefined ]})
    ∧ fields !! "hrv" = Some (VObj {[ "doubleValue" := VNum 45 ]})
    ∧ fields !! "timestamp" = Some (VObj {[ "timestampValue" := VStr ts ]})
    ∧ ts = Date.toISOString (clock Scenario.all_well)
    ∧ Date.is_iso8601 ts = true.
Proof.
  exact (upload_document Scenario.configured Scenario.all_well
           (Request "POST" Scenario.reading_u1)
           (Obs.upload_call Scenario.configured (VStr "u1")
              (Obs.upload_fields (Request "POST" Scenario.reading_u1)
                 (clock Scenario.all_well)))
           ltac:(by left)).
Defined.

(** X11: the raw-upload handler lets an exception escape only on a POST whose
    body is [null] or [undefined].  In every other case it answers, with one
    of four answers: 405 [{ message: "Method Not Allowed" }], 500
    [{ error: "Firebase credentials missing" }], 200
    [{ success: true, message: "Data uploaded" }] or 500
    [{ error: "Failed to upload data" }]; never 400.  It makes at most one
    outbound call, to the document store, and none to the prediction
    service. *)
Theorem upload_always_answers (cfg : env) (w : world) (req : request) :
  let r := run w (Upload.handler cfg req) in
  (if bool_decide (method req = "POST") && nullish (body req)
   then ∃ msg : string, r = ([], inl (TypeError msg))
   else
     r.2 = inr (Response 405 ∅
                  (Some (VObj {[ "message" := VStr "Method Not Allowed" ]})))
     ∨ r.2 = inr (Response 500 ∅
                    (Some (VObj {[ "error" := VStr "Firebase credentials missing" ]})))
     ∨ r.2 = inr (Response 200 ∅
                    (Some (VObj {[ "success" := VBool true;
                                   "message" := VStr "Data uploaded" ]})))
     ∨ r.2 = inr (Response 500 ∅
                    (Some (VObj {[ "error" := VStr "Failed to upload data" ]}))))
  ∧ Obs.prediction_calls r.1 = []
  ∧ (outbound r.1 = []
     ∨ ∃ c : call, outbound r.1 = [c] ∧ Obs.to_document_store c = true).
Proof.
  intros r. subst r.
  destruct (decide (method req = "POST")) as [Hm|Hm].
  2:{ rewrite run_upload_not_post by done.
      rewrite bool_decide_eq_false_2 by done. cbn [andb fst snd].
      split; [by left|]. split; [done|by left]. }
  rewrite bool_decide_eq_true_2 by done. cbn [andb].
  destruct (nullish (body req)) eqn:Hb.
  { rewrite run_upload_no_body by done.
    split; [by eexists|]. split; [done|by left]. }
  destruct (truthy (env_value (FIREBASE_PROJECT_ID cfg))
            && truthy (env_value (FIREBASE_API_KEY cfg))) eqn:Hcred.
  2:{ rewrite run_upload_no_credentials by done.
      split; [right; by left|]. split; [done|by left]. }
  apply andb_prop in Hcred as [Hp Hk].
  assert (Obs.reaches_write cfg req) as Hr by done.
  destruct (stringifiable (Obs.upload_user req)) eqn:Hu.
  2:{ rewrite (run_upload_unprintable cfg w req Hr Hu).
      split; [do 3 right; done|]. split; [done|by left]. }
  rewrite (run_upload cfg w req Hr Hu). cbv zeta.
  destruct (network w _) as [d|e]; cbn [fst snd].
  - split; [do 2 right; by left|]. split; [done|]. right. by eexists.
  - split; [do 3 right; done|]. split; [done|]. right. by eexists.
Qed.

(** X12: where a relay handler and the raw-upload handler write, for one
    request and one configuration.  The raw-upload handler posts to
    [.../user_display/{userId}/readings/latest].  A relay handler that takes
    the same request writes to that same URL, except the one of
    [src/index.js], which writes to [.../user_display/{userId}/latest]; and it
    sends the write with [axios.patch], except the second document of
    [src/api/index.js], which uses [axios.post] as the raw-upload handler
    does. *)
Theorem store_target_by_file (f : Relay.file) (cfg : env) (w w' : world)
    (req : request) (c c' : call) :
  c ∈ Obs.store_writes (run w (Relay.handler f cfg req)).1 ->
  c' ∈ outbound (run w' (Upload.handler cfg req)).1 ->
  call_url c'
    = [ Lit "https://firestore.googleapis.com/v1/"; Lit "projects/";
        Sub (env_value (FIREBASE_PROJECT_ID cfg));
        Lit "/databases/(default)/documents/user_display/";
        Sub (get (body req) "userId"); Lit "/readings/latest";
        Lit "?key="; Sub (env_value (FIREBASE_API_KEY cfg)) ]
  ∧ call_url c
    = [ Lit "https://firestore.googleapis.com/v1/"; Lit "projects/";
        Sub (env_value (FIREBASE_PROJECT_ID cfg));
        Lit "/databases/(default)/documents/user_display/";
        Sub (get (body req) "userId");
        Lit (match f with
             | Relay.index_js => "/latest"
             | _ => "/readings/latest"
             end);
        Lit "?key="; Sub (env_value (FIREBASE_API_KEY cfg)) ]
  ∧ (call_url c = call_url c' ↔ f ≠ Relay.index_js)
  ∧ call_verb c' = POST
  ∧ call_verb c = match f with Relay.api_index_2 => POST | _ => PATCH end.
Proof.
  intros Hin Hin'.
  destruct (relay_store_write f cfg w req c Hin)
    as (data & Hv & _ & _ & _ & ->).
  destruct (upload_called cfg w' req c' Hin') as [Hr Hu].
  rewrite (run_upload cfg w' req Hr Hu) in Hin'. cbv zeta in Hin'.
  assert (c' = Obs.upload_call cfg (Obs.upload_user req)
                 (Obs.upload_fields req (clock w'))) as ->.
  { destruct (network w' _); cbn [fst] in Hin';
      autorewrite with obs in Hin'; by apply list_elem_of_singleton in Hin'. }
  assert (Obs.upload_user req = get (body req) "userId") as Huser.
  { destruct Hv as (_ & _ & _ & Hid). unfold Obs.upload_user.
    by destruct (get (body req) "userId"). }
  unfold Obs.upload_call. rewrite Huser. cbn [call_url call_verb].
  split; [reflexivity|].
  destruct f; (split; [reflexivity|]); (split; [|by split]);
    split; try done; intros H; by destruct H.
Qed.

Lemma store_target_by_file_witness :
  call_verb
    (Obs.store_call Relay.index_js Scenario.configured (VStr "u1")
       (Relay.fields_of
          (Obs.stored_of (Request "POST" Scenario.reading_u1) Scenario.calm_reply)
          (clock Scenario.all_well)))
  = PATCH.
Proof.
  exact (proj2 (proj2 (proj2 (proj2
    (store_target_by_file Relay.index_js Scenario.configured
       Scenario.all_well Scenario.store_down (Request "POST" Scenario.reading_u1)
       (Obs.store_call Relay.index_js Scenario.configured (VStr "u1")
          (Relay.fields_of
             (Obs.stored_of (Request "POST" Scenario.reading_u1) Scenario.calm_reply)
             (clock Scenario.all_well)))
       (Obs.upload_call Scenario.configured (VStr "u1")
          (Obs.upload_fields (Request "POST" Scenario.reading_u1)
             (clock Scenario.store_down)))
       ltac:(by left) ltac:(by left)))))).
Defined.

End extras.
